(** * Inquiro: the query-to-artifact pipeline

    A shallow embedding of the research assistant's pipeline:

    - the backend ([fetch_arxiv_papers], [format_citations], [search]),
      written in Python, is modelled over an error monad whose failures are
      the exceptions the source can raise;
    - the frontend ([buildFlowElements]), written in JavaScript, is modelled
      over the JSON values it receives from the backend.

    The summarizer module of the backend ([services/summarizer.py]) is not
    part of the sources; [search] takes it as a parameter, and
    [Summarizer.summarize_papers] models it from the specification. *)

From Stdlib Require Import ZArith Lia Ascii String DecimalString DecimalNat.
From stdpp Require Import base option list strings.

Set Warnings "-register-all".

(** ** Exceptions and the error monad *)

(** The exceptions the modelled code can raise.  [AttributeError a] is
    Python's "'NoneType' object has no attribute a"; [HTTPError] stands for
    every failure of the HTTP layer (transport failure, or the status error
    of [raise_for_status]); [TypeError] is JavaScript's. *)
Inductive exn : Type :=
  | AttributeError (attribute : string)
  | IndexError
  | HTTPError
  | TypeError.

Inductive result (A : Type) : Type :=
  | Ok (a : A)
  | Err (e : exn).
Arguments Ok {A} a.
Arguments Err {A} e.

Definition bind {A B : Type} (m : result A) (k : A -> result B) : result B :=
  match m with
  | Ok a => k a
  | Err e => Err e
  end.

Notation "'let*' x ':=' m 'in' k" := (bind m (fun x => k))
  (at level 10, x pattern, m at level 100, k at level 200).

Definition is_ok {A : Type} (m : result A) : bool :=
  match m with Ok _ => true | Err _ => false end.

(** A list comprehension [[f(x) for x in l]]: the first exception aborts. *)
Fixpoint comprehension {A B : Type} (f : A -> result B) (l : list A) : result (list B) :=
  match l with
  | [] => Ok []
  | x :: l' =>
      let* y := f x in
      let* ys := comprehension f l' in
      Ok (y :: ys)
  end.

(** ** Python strings

    Strings are sequences of the code points that [ascii] covers. *)
Module Py.

(** [s[:n]] *)
Fixpoint slice_to (n : nat) (s : string) : string :=
  match n, s with
  | S n', String c s' => String c (slice_to n' s')
  | _, _ => ""
  end.

(** [a or b] on strings: the empty string is falsy. *)
Definition or (a b : string) : string :=
  match a with
  | "" => b
  | _ => a
  end.

(** [sep.join(l)] *)
Definition join (sep : string) (l : list string) : string := String.concat sep l.

(** [s.split(sep)] for a one-character separator. *)
Fixpoint split (sep : ascii) (s : string) : list string :=
  match s with
  | "" => [""]
  | String c s' =>
      if Ascii.eqb c sep then "" :: split sep s'
      else match split sep s' with
           | [] => [String c ""]
           | w :: ws => String c w :: ws
           end
  end.

(** [l[-1]] *)
Definition index_last (l : list string) : result string :=
  match last l with
  | Some x => Ok x
  | None => Err IndexError
  end.

(** [str.isspace] on one character. *)
Definition isspace (c : ascii) : bool :=
  let n := nat_of_ascii c in
  ((9 <=? n)%nat && (n <=? 13)%nat) || ((28 <=? n)%nat && (n <=? 32)%nat) || (n =? 133)%nat || (n =? 160)%nat.

Fixpoint lstrip (s : string) : string :=
  match s with
  | "" => ""
  | String c s' => if isspace c then lstrip s' else s
  end.

Fixpoint rstrip (s : string) : string :=
  match s with
  | "" => ""
  | String c s' =>
      match rstrip s' with
      | "" => if isspace c then "" else String c ""
      | r => String c r
      end
  end.

(** [s.strip()] *)
Definition strip (s : string) : string := rstrip (lstrip s).

(** An optional string inside an f-string: [None] is rendered as its name. *)
Definition fstr (o : option string) : string :=
  match o with
  | Some s => s
  | None => "None"
  end.

Definition newline : string := String (ascii_of_nat 10) "".

End Py.

(** ** The parsed feed document (BeautifulSoup) *)
Module Soup.

Inductive element : Type :=
  | Tag (name : string) (contents : list element)
  | NavigableString (s : string).

(** [e.descendants]: every element below [e], in document order. *)
Fixpoint descendants (e : element) : list element :=
  match e with
  | Tag _ cs => flat_map (fun c => c :: descendants c) cs
  | NavigableString _ => []
  end.

Definition named (name : string) (e : element) : bool :=
  match e with
  | Tag n _ => String.eqb n name
  | NavigableString _ => false
  end.

(** [e.find_all(name)] *)
Definition find_all (name : string) (e : element) : list element :=
  List.filter (named name) (descendants e).

(** [e.find(name)], which is also what the attribute access [e.name]
    evaluates to: the first match, or [None]. *)
Definition find (name : string) (e : element) : option element :=
  head (find_all name e).

(** [e.text]: the strings below [e], concatenated. *)
Fixpoint text (e : element) : string :=
  match e with
  | Tag _ cs => String.concat "" (List.map text cs)
  | NavigableString s => s
  end.

(** [e.name.text]: raises when [e] has no element called [name]. *)
Definition child_text (name : string) (e : element) : result string :=
  match find name e with
  | Some t => Ok (text t)
  | None => Err (AttributeError "text")
  end.

End Soup.

(** ** Data model *)

(** A paper is a Python dict over six keys; a [None] field is an absent key.
    The feed parser always sets all six. *)
Record Paper : Type := {
  paper_id : option string;
  paper_title : option string;
  paper_summary : option string;
  paper_published : option string;
  paper_authors : option (list string);
  paper_link : option string
}.

Record Citation : Type := {
  apa : string;
  bibtex : string
}.

(** Modelled from the spec: the type of the summarizer's results, which
    [services/summarizer.py] would define: "[bullets]: ordered sequence of
    short strings; [narrative]: optional longer text", the narrative of an
    unavailable summary being empty. *)
Record Digest : Type := {
  bullets : list string;
  narrative : string
}.

(** Modelled from the spec: the empty form of a digest, which
    [services/summarizer.py] would return for a failed summarization: "A
    Digest with zero bullets and empty narrative is valid and represents
    summarization unavailable". *)
Definition empty_digest : Digest := {| bullets := []; narrative := "" |}.

(** ** Backend: the feed client ([services/arxiv_client.py]) *)

Definition ARXIV_BASE : string := "http://export.arxiv.org/api/query".

(** The query parameters of the feed request. *)
Record Params : Type := {
  param_search_query : string;
  param_start : Z;
  param_max_results : Z;
  param_sortBy : string;
  param_sortOrder : string
}.

Record Response : Type := {
  status_code : nat;
  text : string
}.

(** [resp.raise_for_status()]: any status outside 2xx raises. *)
Definition raise_for_status (resp : Response) : result unit :=
  if ((200 <=? status_code resp)%nat && (status_code resp <? 300)%nat)%bool
  then Ok tt else Err HTTPError.

(** The body of the loop over the entries of the feed. *)
Definition parse_entry (entry : Soup.element) : result Paper :=
  let authors := List.map Soup.text (Soup.find_all "author" entry) in
  let* id := Soup.child_text "id" entry in
  let* title := Soup.child_text "title" entry in
  let* summary := Soup.child_text "summary" entry in
  let* published := Soup.child_text "published" entry in
  let* link := Soup.child_text "id" entry in
  Ok {| paper_id := Some id;
        paper_title := Some (Py.strip title);
        paper_summary := Some (Py.strip summary);
        paper_published := Some published;
        paper_authors := Some authors;
        paper_link := Some link |}.

(** The dict [params] of the request. *)
Definition params (query : string) (max_results : Z) : Params :=
  {| param_search_query := "all:" +:+ query;
     param_start := 0;
     param_max_results := max_results;
     param_sortBy := "submittedDate";
     param_sortOrder := "descending" |}.

Section Feed.

(** The network: what [client.get(url, params=params, timeout=30.0)]
    answers; [None] is a transport failure (no connection, time-out). *)
Variable client_get : string -> Params -> option Response.

(** [BeautifulSoup(text, 'lxml')]: the document tree of a response body. *)
Variable BeautifulSoup : string -> Soup.element.

Definition fetch_arxiv_papers (query : string) (max_results : Z) : result (list Paper) :=
  let params := params query max_results in
  let* resp := match client_get ARXIV_BASE params with
               | Some resp => Ok resp
               | None => Err HTTPError
               end in
  let* _ := raise_for_status resp in
  let soup := BeautifulSoup (text resp) in
  comprehension parse_entry (Soup.find_all "entry" soup).

End Feed.

(** ** Backend: citations ([services/citation.py]) *)

(** [paper.get('published','')[:4] or 'n.d.'] *)
Definition year (paper : Paper) : string :=
  Py.or (Py.slice_to 4 (default "" (paper_published paper))) "n.d.".

(** [', '.join(paper.get('authors', []))] *)
Definition author_str (paper : Paper) : string :=
  Py.join ", " (default [] (paper_authors paper)).

Definition format_citations (paper : Paper) : result Citation :=
  let author_str := author_str paper in
  let year := year paper in
  let apa := author_str +:+ " (" +:+ year +:+ "). " +:+ Py.fstr (paper_title paper)
             +:+ ". arXiv. " +:+ Py.fstr (paper_link paper) in
  let* id := match paper_id paper with
             | Some id => Ok id
             | None => Err (AttributeError "split")
             end in
  let* key := Py.index_last (Py.split "/" id) in
  let bibtex :=
    "@article{" +:+ key +:+ "," +:+ Py.newline
    +:+ "  title = {" +:+ Py.fstr (paper_title paper) +:+ "}," +:+ Py.newline
    +:+ "  author = {" +:+ author_str +:+ "}," +:+ Py.newline
    +:+ "  year = {" +:+ year +:+ "}," +:+ Py.newline
    +:+ "  howpublished = {arXiv:" +:+ key +:+ "}," +:+ Py.newline
    +:+ "  url = {" +:+ Py.fstr (paper_link paper) +:+ "}" +:+ Py.newline
    +:+ "}" in
  Ok {| apa := apa; bibtex := bibtex |}.

(** ** Backend: the summarizer ([services/summarizer.py]) *)
Module Summarizer.
Section Summarizer.

(** The generative text service: the reply to the request made for the
    paper at a given index, [None] when that call fails. *)
Variable service : nat -> Paper -> option string.

(** The parser of a reply, [None] when the reply is unparseable. *)
Variable parse_reply : string -> option Digest.

(** Modelled from the spec: the digest of one paper, which
    [services/summarizer.py] would compute: "If the reply is unparseable
    or the call fails for an individual paper, that paper's Digest
    degrades to the empty form". *)
Definition summarize_paper (i : nat) (paper : Paper) : Digest :=
  match service i paper with
  | Some reply => default empty_digest (parse_reply reply)
  | None => empty_digest
  end.

(** Modelled from the spec: [summarize_papers] of
    [services/summarizer.py]: "For each Paper independently ... requests
    a structured digest", the results "positionally aligned to the
    input"; no failure of a call surfaces to the caller. *)
Definition summarize_papers (papers : list Paper) : result (list Digest) :=
  Ok (imap summarize_paper papers).

End Summarizer.
End Summarizer.

(** ** Backend: the search endpoint ([main.py]) *)

Record SearchRequest : Type := {
  query : string;
  max_results : Z
}.

(** The values of the dict that [search] returns. *)
Inductive field_value : Type :=
  | Papers (papers : list Paper)
  | Summaries (summaries : list Digest)
  | Citations (citations : list Citation).

(** A Python dict with string keys, in insertion order. *)
Definition Bundle : Type := list (string * field_value).

Inductive SearchResult : Type :=
  | Returned (b : Bundle)
  | HTTPException (status : nat) (detail : exn).

Section Search.

Variable client_get : string -> Params -> option Response.
Variable BeautifulSoup : string -> Soup.element.

(** The summarizer module, which the sources do not contain. *)
Variable summarizer : list Paper -> result (list Digest).

Definition search (req : SearchRequest) : SearchResult :=
  let attempt :=
    let* papers := fetch_arxiv_papers client_get BeautifulSoup (query req) (max_results req) in
    let* summaries := summarizer papers in
    let* citations := comprehension format_citations papers in
    Ok [("papers", Papers papers);
        ("summaries", Summaries summaries);
        ("citations", Citations citations)] in
  match attempt with
  | Ok b => Returned b
  | Err e => HTTPException 500 e
  end.

End Search.

(** ** Frontend: JavaScript values *)
Module Js.

(** The values the frontend handles: JSON, and [undefined].  Numbers are
    the integers, which is all the modelled code computes with. *)
Inductive value : Type :=
  | Undefined
  | Null
  | Bool (b : bool)
  | Number (n : Z)
  | Str (s : string)
  | Array (items : list value)
  | Object (fields : list (string * value)).

(** [!v] is [negb (truthy v)]. *)
Definition truthy (v : value) : bool :=
  match v with
  | Undefined | Null => false
  | Bool b => b
  | Number n => negb (n =? 0)%Z
  | Str s => negb (String.eqb s "")
  | Array _ | Object _ => true
  end.

(** The value of a key in the fields of an object; as in [JSON.parse],
    the last occurrence of a repeated key counts. *)
Fixpoint assoc (k : string) (fields : list (string * value)) : option value :=
  match fields with
  | [] => None
  | (k', v) :: fields' =>
      match assoc k fields' with
      | Some w => Some w
      | None => if String.eqb k' k then Some v else None
      end
  end.

(** [String(i)] for an array index. *)
Definition to_string (i : nat) : string :=
  NilEmpty.string_of_uint (Nat.to_uint i).

(** [v.k], for a name [k] that no built-in prototype defines (the
    modelled code reads [papers], [summaries], [bullets] and [title]). *)
Definition prop (k : string) (v : value) : result value :=
  match v with
  | Undefined | Null => Err TypeError
  | Object fields => Ok (default Undefined (assoc k fields))
  | _ => Ok Undefined
  end.

(** [v[i]] for an index [i]. *)
Definition index (v : value) (i : nat) : result value :=
  match v with
  | Undefined | Null => Err TypeError
  | Array items => Ok (default Undefined (items !! i))
  | Str s => Ok (match String.get i s with
                 | Some c => Str (String c "")
                 | None => Undefined
                 end)
  | Object fields => Ok (default Undefined (assoc (to_string i) fields))
  | _ => Ok Undefined
  end.

(** The loop of [items.forEach((x, i) => ...)] from index [i] on, the
    callback updating the state [s]; an exception ends the loop. *)
Fixpoint forEach_from {S : Type} (f : value -> nat -> S -> result S)
    (items : list value) (i : nat) (s : S) : result S :=
  match items with
  | [] => Ok s
  | x :: items' =>
      let* s' := f x i s in
      forEach_from f items' (Datatypes.S i) s'
  end.

(** [v.forEach((x, i) => ...)]: only an array has the method. *)
Definition forEach {S : Type} (v : value) (f : value -> nat -> S -> result S)
    (s : S) : result S :=
  match v with
  | Array items => forEach_from f items 0 s
  | _ => Err TypeError
  end.

End Js.

(** ** Frontend: the mind map ([App.jsx]) *)

Record Node : Type := {
  node_id : string;
  node_type : option string;
  node_label : Js.value;
  node_x : Z;
  node_y : Z
}.

Record Edge : Type := {
  edge_id : string;
  edge_source : string;
  edge_target : string
}.

Inductive Element : Type :=
  | NodeElement (n : Node)
  | EdgeElement (e : Edge).

(** [{ id: 'p'+i, type: 'default', data: { label }, position: { x: 50, y: i*80 } }] *)
Definition paper_node (i : nat) (label : Js.value) : Node :=
  {| node_id := "p" +:+ Js.to_string i;
     node_type := Some "default";
     node_label := label;
     node_x := 50;
     node_y := Z.of_nat i * 80 |}.

(** [{ id: `p${i}b${j}`, data: { label: b }, position: { x: 350, y: i*80 + j*20 } }] *)
Definition bullet_node (i j : nat) (b : Js.value) : Node :=
  {| node_id := "p" +:+ Js.to_string i +:+ "b" +:+ Js.to_string j;
     node_type := None;
     node_label := b;
     node_x := 350;
     node_y := Z.of_nat i * 80 + Z.of_nat j * 20 |}.

(** [{ id: `e-${i}-${j}`, source: 'p'+i, target: `p${i}b${j}` }] *)
Definition bullet_edge (i j : nat) : Edge :=
  {| edge_id := "e-" +:+ Js.to_string i +:+ "-" +:+ Js.to_string j;
     edge_source := "p" +:+ Js.to_string i;
     edge_target := "p" +:+ Js.to_string i +:+ "b" +:+ Js.to_string j |}.

(** [(results.summaries[i] && results.summaries[i].bullets) || []] *)
Definition bullets_of (results : Js.value) (i : nat) : result Js.value :=
  let* all := Js.prop "summaries" results in
  let* s := Js.index all i in
  let* b := if Js.truthy s then Js.prop "bullets" s else Ok s in
  Ok (if Js.truthy b then b else Js.Array []).

(** The callback of the loop over the bullets of paper [i]. *)
Definition each_bullet (i : nat) (b : Js.value) (j : nat) (st : list Node * list Edge)
    : result (list Node * list Edge) :=
  let '(nodes, edges) := st in
  Ok (nodes ++ [bullet_node i j b], edges ++ [bullet_edge i j]).

(** The callback of the loop over the papers. *)
Definition each_paper (results : Js.value) (p : Js.value) (i : nat)
    (st : list Node * list Edge) : result (list Node * list Edge) :=
  let '(nodes, edges) := st in
  let* title := Js.prop "title" p in
  let nodes := nodes ++ [paper_node i title] in
  let* bullets := bullets_of results i in
  Js.forEach bullets (each_bullet i) (nodes, edges).

(** The two arrays [nodes] and [edges] as they are when the loop ends. *)
Definition flow_arrays (results : Js.value) : result (list Node * list Edge) :=
  let* papers := Js.prop "papers" results in
  Js.forEach papers (each_paper results) ([], []).

Definition buildFlowElements (results : Js.value) : result (list Element) :=
  if negb (Js.truthy results) then Ok []
  else
    let* arrays := flow_arrays results in
    let '(nodes, edges) := arrays in
    Ok (List.map NodeElement nodes ++ List.map EdgeElement edges).

(** ** The response on the wire

    The dict that [search] returns reaches the frontend as the JSON object
    [res.data] with the same keys; an absent key of a paper stays absent. *)

Definition field {A : Type} (k : string) (f : A -> Js.value) (o : option A)
    : list (string * Js.value) :=
  match o with
  | Some a => [(k, f a)]
  | None => []
  end.

Definition json_strings (l : list string) : Js.value := Js.Array (List.map Js.Str l).

Definition json_of_paper (p : Paper) : Js.value :=
  Js.Object (field "id" Js.Str (paper_id p)
             ++ field "title" Js.Str (paper_title p)
             ++ field "summary" Js.Str (paper_summary p)
             ++ field "published" Js.Str (paper_published p)
             ++ field "authors" json_strings (paper_authors p)
             ++ field "link" Js.Str (paper_link p)).

Definition json_of_digest (d : Digest) : Js.value :=
  Js.Object [("bullets", json_strings (bullets d)); ("narrative", Js.Str (narrative d))].

Definition json_of_citation (c : Citation) : Js.value :=
  Js.Object [("apa", Js.Str (apa c)); ("bibtex", Js.Str (bibtex c))].

Definition json_of_field (v : field_value) : Js.value :=
  match v with
  | Papers papers => Js.Array (List.map json_of_paper papers)
  | Summaries summaries => Js.Array (List.map json_of_digest summaries)
  | Citations citations => Js.Array (List.map json_of_citation citations)
  end.

Definition json_of_bundle (b : Bundle) : Js.value :=
  Js.Object (List.map (fun kv => (fst kv, json_of_field (snd kv))) b).


(** ** Backend: the route ([main.py], FastAPI) *)
Section Route.

Variable client_get : string -> Params -> option Response.
Variable BeautifulSoup : string -> Soup.element.
Variable summarizer : list Paper -> result (list Digest).

(** Python's [str(e)], the text of an exception. *)
Variable str : exn -> string.

(** The response of the application to a POST request: status and JSON
    body.  The route [/search] answers 200 with the dict that [search]
    returns, or the status of the [HTTPException] with its detail; any
    other path is not found. *)
Definition serve (path : string) (req : SearchRequest) : option (nat * Js.value) :=
  if String.eqb path "/search"
  then Some (match search client_get BeautifulSoup summarizer req with
             | Returned b => (200, json_of_bundle b)
             | HTTPException status detail =>
                 (status, Js.Object [("detail", Js.Str (str detail))])
             end)
  else Some (404, Js.Object [("detail", Js.Str "Not Found")]).

End Route.

(** ** Frontend: the API client ([api.js]) *)
Module Api.
Section Api.

(** The server behind [API.post]: status and data of the response to a
    request with body [{ query, max_results }], [None] when no response
    arrives. *)
Variable post : string -> SearchRequest -> option (nat * Js.value).

(** [search(query, max_results=5)]: axios resolves with a response whose
    status is 2xx, and rejects otherwise. *)
Definition search (query : string) (max_results : option Z) : result Js.value :=
  let max_results := default 5%Z max_results in
  match post "/search" {| query := query; max_results := max_results |} with
  | Some (status, data) =>
      if ((200 <=? status)%nat && (status <? 300)%nat)%bool then Ok data else Err HTTPError
  | None => Err HTTPError
  end.

End Api.
End Api.

(** ** Frontend: arrays *)

(** The loop of [items.map((x, i) => ...)] from index [i] on. *)
Fixpoint Array_map_from {B : Type} (f : Js.value -> nat -> result B)
    (items : list Js.value) (i : nat) : result (list B) :=
  match items with
  | [] => Ok []
  | x :: items' =>
      let* y := f x i in
      let* ys := Array_map_from f items' (S i) in
      Ok (y :: ys)
  end.

(** [v.map((x, i) => ...)]: only an array has the method. *)
Definition Array_map {B : Type} (v : Js.value) (f : Js.value -> nat -> result B)
    : result (list B) :=
  match v with
  | Js.Array items => Array_map_from f items 0
  | _ => Err TypeError
  end.

(** ** Frontend: the application ([App.jsx]) *)
Module App.

(** The three state variables of the component. *)
Record State : Type := {
  query : string;
  results : Js.value;
  loading : bool
}.

(** [useState('')], [useState(null)], [useState(false)] *)
Definition initial : State :=
  {| query := ""; results := Js.Null; loading := false |}.

(** What a handler does: it sets a state variable, logs, or alerts. *)
Inductive event : Type :=
  | setQuery (value : string)
  | setResults (data : Js.value)
  | setLoading (flag : bool)
  | console_error (e : exn)
  | alert (message : string).

Definition update (st : State) (ev : event) : State :=
  match ev with
  | setQuery value => {| query := value; results := results st; loading := loading st |}
  | setResults data => {| query := query st; results := data; loading := loading st |}
  | setLoading flag => {| query := query st; results := results st; loading := flag |}
  | console_error _ | alert _ => st
  end.

(** The state after a sequence of events. *)
Definition run (st : State) (evs : list event) : State := fold_left update evs st.

(** The messages of the alerts among the events. *)
Definition alerts (evs : list event) : list string :=
  omap (fun ev => match ev with alert message => Some message | _ => None end) evs.

(** One card of the list of papers: what the link points to and shows, the
    date, the line of authors, the text of the digest and the citation. *)
Record Card : Type := {
  href : Js.value;
  title : Js.value;
  published : Js.value;
  authors : string;
  summary : Js.value;
  citation : Js.value
}.

(** The right half of the page: the falsy [results] itself, or the cards
    and the elements of the mind map. *)
Inductive Panel : Type :=
  | Falsy (results : Js.value)
  | Shown (cards : list Card) (elements : list Element).

Record View : Type := {
  input_value : string;
  loading_shown : bool;
  panel : Panel
}.

Section App.

Variable post : string -> SearchRequest -> option (nat * Js.value).

(** JavaScript's conversion to a string of a value that is neither a
    string, nor [null], nor [undefined]. *)
Variable ToString : Js.value -> string.

(** [JSON.stringify(v, null, 2)]. *)
Variable stringify : Js.value -> Js.value.

(** The events of [handleSearch], started in the state [st].  A setter
    records its update and returns; this is the handler on a page that can
    show each state it passes through, which is what the properties of the
    handler assume (a rendering that throws inside a setter is not
    modelled). *)
Definition handleSearch (st : State) : list event :=
  [setLoading true]
  ++ match Api.search post (query st) (Some 5%Z) with
     | Ok data => [setResults data]
     | Err e => [console_error e; alert "Search failed"]
     end
  ++ [setLoading false].

(** [v.join(sep)]: only an array has the method; [null] and [undefined]
    elements are joined as empty strings. *)
Definition join (v : Js.value) (sep : string) : result string :=
  match v with
  | Js.Array items =>
      Ok (String.concat sep
            (List.map (fun x => match x with
                                | Js.Str s => s
                                | Js.Undefined | Js.Null => ""
                                | _ => ToString x
                                end) items))
  | _ => Err TypeError
  end.

(** The card of the paper [p] at index [idx].  (On a string, [p.link] is a
    method and not [undefined]; the card fails all the same, on
    [p.authors].) *)
Definition card (results : Js.value) (p : Js.value) (idx : nat) : result Card :=
  let* link := Js.prop "link" p in
  let* title := Js.prop "title" p in
  let* published := Js.prop "published" p in
  let* authors := Js.prop "authors" p in
  let* line := join authors ", " in
  let* summaries := Js.prop "summaries" results in
  let* digest := Js.index summaries idx in
  let* citations := Js.prop "citations" results in
  let* c := Js.index citations idx in
  let* apa := Js.prop "apa" c in
  Ok {| href := link; title := title; published := published; authors := line;
        summary := stringify digest; citation := apa |}.

(** [results.papers.map((p, idx) => ...)] *)
Definition cards (results : Js.value) : result (list Card) :=
  let* papers := Js.prop "papers" results in
  Array_map papers (card results).

(** What the component returns in the state [st]. *)
Definition view (st : State) : result View :=
  let* panel :=
    if Js.truthy (results st)
    then
      let* cs := cards (results st) in
      let* elements := buildFlowElements (results st) in
      Ok (Shown cs elements)
    else Ok (Falsy (results st)) in
  Ok {| input_value := query st; loading_shown := loading st; panel := panel |}.

End App.
End App.

(** ** Vocabulary of the properties *)

Definition is_digit (c : ascii) : bool :=
  let n := nat_of_ascii c in ((48 <=? n)%nat && (n <=? 57)%nat)%bool.

(** A token of exactly four decimal digits. *)
Definition four_digit_token (s : string) : bool :=
  ((String.length s =? 4)%nat && forallb is_digit (list_ascii_of_string s))%bool.

Definition present {A : Type} (o : option A) : bool :=
  match o with Some _ => true | None => false end.

(** An entry that has the four elements the feed parser reads the text of. *)
Definition complete_entry (entry : Soup.element) : bool :=
  (present (Soup.find "id" entry) && present (Soup.find "title" entry)
   && present (Soup.find "summary" entry) && present (Soup.find "published" entry))%bool.

(** The bundle of given papers, digests and citations. *)
Definition bundle_of (ps : list Paper) (ds : list Digest) (cs : list Citation) : Bundle :=
  [("papers", Papers ps); ("summaries", Summaries ds); ("citations", Citations cs)].

(** The label of the node of a paper: its title, when it has one. *)
Definition title_of (p : Paper) : Js.value :=
  from_option Js.Str Js.Undefined (paper_title p).

(** The bullets of the digest at index [i], none when there is no digest. *)
Definition bullets_at (ds : list Digest) (i : nat) : list string :=
  from_option bullets [] (ds !! i).

Definition bullet_nodes (i : nat) (bs : list string) : list Node :=
  imap (fun j b => bullet_node i j (Js.Str b)) bs.

Definition bullet_edges (i : nat) (bs : list string) : list Edge :=
  imap (fun j _ => bullet_edge i j) bs.

(** The nodes, and the edges, of the papers [ps], the first of which has
    index [i], in the order in which the loops push them. *)
Fixpoint nodes_from (i : nat) (ps : list Paper) (ds : list Digest) : list Node :=
  match ps with
  | [] => []
  | p :: ps' =>
      (paper_node i (title_of p) :: bullet_nodes i (bullets_at ds i))
      ++ nodes_from (S i) ps' ds
  end.

Fixpoint edges_from (i : nat) (ps : list Paper) (ds : list Digest) : list Edge :=
  match ps with
  | [] => []
  | p :: ps' => bullet_edges i (bullets_at ds i) ++ edges_from (S i) ps' ds
  end.

(** The nodes and the edges among the elements of a graph. *)
Definition nodes_of (g : list Element) : list Node :=
  omap (fun x => match x with NodeElement n => Some n | EdgeElement _ => None end) g.

Definition edges_of (g : list Element) : list Edge :=
  omap (fun x => match x with EdgeElement e => Some e | NodeElement _ => None end) g.

(** The node of the paper at index [i], recognised by its identifier. *)
Definition is_paper_node (i : nat) (n : Node) : bool :=
  String.eqb (node_id n) ("p" +:+ Js.to_string i).

(** A bullet node of the paper at index [i]: its identifier starts with the
    identifier of the paper node, then [b]. *)
Definition is_bullet_node (i : nat) (n : Node) : bool :=
  String.prefix ("p" +:+ Js.to_string i +:+ "b") (node_id n).

(** An edge whose source is the node of the paper at index [i]. *)
Definition leaves (i : nat) (e : Edge) : bool :=
  String.eqb (edge_source e) ("p" +:+ Js.to_string i).

(** An element without what it displays: identifier, type and position of
    a node, and an edge as it is. *)
Definition unlabelled (n : Node) : Node :=
  {| node_id := node_id n; node_type := node_type n; node_label := Js.Undefined;
     node_x := node_x n; node_y := node_y n |}.

Definition erase_label (x : Element) : Element :=
  match x with
  | NodeElement n => NodeElement (unlabelled n)
  | EdgeElement e => EdgeElement e
  end.

(** The number of bullets of a digest. *)
Definition bullet_count (d : Digest) : nat := length (bullets d).

(** The character [c] does not occur in [s]. *)
Fixpoint lacks (c : ascii) (s : string) : bool :=
  match s with
  | "" => true
  | String a s' => (negb (Ascii.eqb a c) && lacks c s')%bool
  end.

(** A string that neither starts nor ends with a whitespace character. *)
Definition starts_with_space (s : string) : bool :=
  match s with
  | "" => false
  | String c _ => Py.isspace c
  end.

Fixpoint ends_with_space (s : string) : bool :=
  match s with
  | "" => false
  | String c "" => Py.isspace c
  | String _ s' => ends_with_space s'
  end.

Definition trimmed (s : string) : bool :=
  (negb (starts_with_space s) && negb (ends_with_space s))%bool.

(** The number of occurrences of the character [c] in [s]. *)
Fixpoint count_char (c : ascii) (s : string) : nat :=
  match s with
  | "" => 0
  | String a s' => (if Ascii.eqb a c then 1 else 0) + count_char c s'
  end.



(** A field of a paper as the frontend reads it. *)
Definition optional (o : option string) : Js.value :=
  from_option Js.Str Js.Undefined o.

(** ** Sample data *)
Module Sample.

Definition leaf (name s : string) : Soup.element :=
  Soup.Tag name [Soup.NavigableString s].

Definition author (s : string) : Soup.element :=
  Soup.Tag "author" [leaf "name" s].

(** A well-formed entry. *)
Definition entry : Soup.element :=
  Soup.Tag "entry"
    [leaf "id" "http://arxiv.org/abs/2401.00001v1";
     leaf "published" "2024-01-01T00:00:00Z";
     leaf "title" " Graph Neural Networks ";
     leaf "summary" "We study graphs.";
     author "Ada Lovelace"; author "Alan Turing";
     Soup.Tag "link" []].

(** An entry with no link element. *)
Definition entry_without_link : Soup.element :=
  Soup.Tag "entry"
    [leaf "id" "http://arxiv.org/abs/2401.00002v1";
     leaf "published" "2024-01-02T00:00:00Z";
     leaf "title" "Message Passing";
     leaf "summary" "We pass messages.";
     author "Grace Hopper"].

(** An entry with no identifier element. *)
Definition entry_without_id : Soup.element :=
  Soup.Tag "entry"
    [leaf "published" "2024-01-03T00:00:00Z";
     leaf "title" "Spectral Methods";
     leaf "summary" "We decompose.";
     author "Emmy Noether";
     Soup.Tag "link" []].

Definition feed (entries : list Soup.element) : Soup.element :=
  Soup.Tag "feed" (leaf "title" "arXiv Query" :: entries).

(** A parser whose every document is the feed of the given entries. *)
Definition parsed (entries : list Soup.element) (text : string) : Soup.element :=
  feed entries.

Definition response : Response := {| status_code := 200; text := "<feed>" |}.

(** A feed service that answers every request with status 200. *)
Definition client_get (url : string) (params : Params) : option Response :=
  Some response.

(** A feed service that cannot be reached. *)
Definition unreachable (url : string) (params : Params) : option Response := None.

Definition paper : Paper :=
  {| paper_id := Some "http://arxiv.org/abs/2401.00001v1";
     paper_title := Some "Graph Neural Networks";
     paper_summary := Some "We study graphs.";
     paper_published := Some "2024-01-01T00:00:00Z";
     paper_authors := Some ["Ada Lovelace"; "Alan Turing"];
     paper_link := Some "http://arxiv.org/abs/2401.00001v1" |}.

Definition paper2 : Paper :=
  {| paper_id := Some "http://arxiv.org/abs/2401.00002v1";
     paper_title := Some "Message Passing";
     paper_summary := Some "We pass messages.";
     paper_published := Some "2024-01-02T00:00:00Z";
     paper_authors := Some ["Grace Hopper"];
     paper_link := Some "http://arxiv.org/abs/2401.00002v1" |}.

(** A paper whose byline is empty. *)
Definition anonymous_paper : Paper :=
  {| paper_id := Some "http://arxiv.org/abs/2401.00003v1";
     paper_title := Some "Spectral Methods";
     paper_summary := Some "We decompose.";
     paper_published := Some "2024-01-03T00:00:00Z";
     paper_authors := Some [];
     paper_link := Some "http://arxiv.org/abs/2401.00003v1" |}.

(** A paper whose publication date does not start with a year. *)
Definition undated_paper : Paper :=
  {| paper_id := Some "http://arxiv.org/abs/2401.00004v1";
     paper_title := Some "Undated";
     paper_summary := Some "";
     paper_published := Some "Jan 4, 2024";
     paper_authors := Some ["Ada Lovelace"];
     paper_link := Some "http://arxiv.org/abs/2401.00004v1" |}.

(** A paper dict without the key [title]. *)
Definition untitled_paper : Paper :=
  {| paper_id := Some "http://arxiv.org/abs/2401.00005v1";
     paper_title := None;
     paper_summary := Some "";
     paper_published := Some "2024-01-05T00:00:00Z";
     paper_authors := Some ["Ada Lovelace"];
     paper_link := Some "http://arxiv.org/abs/2401.00005v1" |}.

(** A paper dict without the key [id]. *)
Definition unidentified_paper : Paper :=
  {| paper_id := None;
     paper_title := Some "Unidentified";
     paper_summary := Some "";
     paper_published := Some "2024-01-06T00:00:00Z";
     paper_authors := Some ["Ada Lovelace"];
     paper_link := Some "http://arxiv.org/abs/2401.00006v1" |}.

(** A paper whose title opens a brace and does not close it. *)
Definition braced_paper : Paper :=
  {| paper_id := Some "http://arxiv.org/abs/2401.00007v1";
     paper_title := Some "Sets {x";
     paper_summary := Some "";
     paper_published := Some "2024-01-07T00:00:00Z";
     paper_authors := Some ["Ada Lovelace"];
     paper_link := Some "http://arxiv.org/abs/2401.00007v1" |}.

(** A feed service that answers on the address of the feed and nowhere else. *)
Definition feed_only (url : string) (params : Params) : option Response :=
  if String.eqb url ARXIV_BASE then Some response else None.

(** The page once the user has typed a query. *)
Definition typed : App.State :=
  {| App.query := "graphs"; App.results := Js.Null; App.loading := false |}.

(** A summarization service that answers with the title of the paper. *)
Definition title_service (i : nat) (p : Paper) : option string := paper_title p.

(** The same service, with the call for the paper at index [k] failing. *)
Definition failing_at (k : nat) (i : nat) (p : Paper) : option string :=
  if (i =? k)%nat then None else title_service i p.

(** A reply parser: the reply is the only bullet. *)
Definition parse_reply (reply : string) : option Digest :=
  Some {| bullets := [reply]; narrative := "" |}.

Definition digest : Digest :=
  {| bullets := ["Graphs carry messages."; "Depth is limited."]; narrative := "Two points." |}.

Definition digest2 : Digest :=
  {| bullets := ["Kernels matter."; "Width helps."]; narrative := "" |}.

Definition request : SearchRequest :=
  {| query := "graph neural networks"; max_results := 2 |}.

End Sample.

(** * Properties *)

(** ** The error monad *)

Lemma comprehension_Forall2 {A B : Type} (f : A -> result B) (l : list A) (ys : list B) :
  comprehension f l = Ok ys -> Forall2 (fun x y => f x = Ok y) l ys.
Proof.
  revert ys. induction l as [|x l IH]; intros ys H; simpl in H.
  - inversion H. constructor.
  - destruct (f x) as [y|e] eqn:Hx; simpl in H; [|discriminate].
    destruct (comprehension f l) as [ys'|e] eqn:Hl; simpl in H; [|discriminate].
    inversion H; subst. constructor; auto.
Qed.

Lemma comprehension_Ok {A B : Type} (f : A -> result B) (l : list A) (ys : list B) :
  Forall2 (fun x y => f x = Ok y) l ys -> comprehension f l = Ok ys.
Proof.
  induction 1 as [|x y l ys Hx _ IH]; simpl; [reflexivity|].
  rewrite Hx, IH. reflexivity.
Qed.

Lemma comprehension_Err {A B : Type} (f : A -> result B) (l : list A) (e : exn) :
  (forall x e', f x = Err e' -> e' = e) ->
  Exists (fun x => is_ok (f x) = false) l ->
  comprehension f l = Err e.
Proof.
  intros Hf. induction 1 as [x l Hx|x l _ IH]; simpl.
  - destruct (f x) as [y|e'] eqn:E; [discriminate|].
    rewrite (Hf _ _ E). reflexivity.
  - destruct (f x) as [y|e'] eqn:E; simpl.
    + rewrite IH. reflexivity.
    + rewrite (Hf _ _ E). reflexivity.
Qed.

(** ** The feed parser *)

Lemma child_text_present (name : string) (entry : Soup.element) :
  present (Soup.find name entry) = true ->
  exists s, Soup.child_text name entry = Ok s.
Proof.
  unfold Soup.child_text. destruct (Soup.find name entry); [eauto|discriminate].
Qed.

Lemma child_text_absent (name : string) (entry : Soup.element) :
  present (Soup.find name entry) = false ->
  Soup.child_text name entry = Err (AttributeError "text").
Proof.
  unfold Soup.child_text. destruct (Soup.find name entry); [discriminate|reflexivity].
Qed.

Lemma parse_entry_complete (entry : Soup.element) :
  complete_entry entry = true -> exists p, parse_entry entry = Ok p.
Proof.
  unfold complete_entry. rewrite !andb_true_iff. intros [[[Hi Ht] Hs] Hp].
  destruct (child_text_present _ _ Hi) as [i Ei].
  destruct (child_text_present _ _ Ht) as [t Et].
  destruct (child_text_present _ _ Hs) as [s Es].
  destruct (child_text_present _ _ Hp) as [d Ed].
  unfold parse_entry. rewrite Ei, Et, Es, Ed. simpl. eauto.
Qed.

Lemma parse_entry_error (entry : Soup.element) (e : exn) :
  parse_entry entry = Err e -> e = AttributeError "text".
Proof.
  unfold parse_entry, Soup.child_text.
  destruct (Soup.find "id" entry); simpl; [|congruence].
  destruct (Soup.find "title" entry); simpl; [|congruence].
  destruct (Soup.find "summary" entry); simpl; [|congruence].
  destruct (Soup.find "published" entry); simpl; [|congruence].
  discriminate.
Qed.

Lemma parse_entry_incomplete (entry : Soup.element) :
  complete_entry entry = false -> is_ok (parse_entry entry) = false.
Proof.
  unfold complete_entry, parse_entry, Soup.child_text.
  destruct (Soup.find "id" entry); simpl; [|reflexivity].
  destruct (Soup.find "title" entry); simpl; [|reflexivity].
  destruct (Soup.find "summary" entry); simpl; [|reflexivity].
  destruct (Soup.find "published" entry); simpl; [discriminate|reflexivity].
Qed.

Lemma parse_entry_link (entry : Soup.element) (p : Paper) :
  parse_entry entry = Ok p ->
  exists id, paper_id p = Some id /\ paper_link p = Some id.
Proof.
  unfold parse_entry.
  destruct (Soup.child_text "id" entry) as [i|]; simpl; [|discriminate].
  destruct (Soup.child_text "title" entry); simpl; [|discriminate].
  destruct (Soup.child_text "summary" entry); simpl; [|discriminate].
  destruct (Soup.child_text "published" entry); simpl; [|discriminate].
  intros [= <-]. exists i. split; reflexivity.
Qed.

(** What [fetch_arxiv_papers] does once the feed has answered. *)
Lemma fetch_answered client_get BeautifulSoup (q : string) (n : Z) (resp : Response) :
  client_get ARXIV_BASE (params q n) = Some resp ->
  raise_for_status resp = Ok tt ->
  fetch_arxiv_papers client_get BeautifulSoup q n
  = comprehension parse_entry (Soup.find_all "entry" (BeautifulSoup (text resp))).
Proof.
  intros Hget Hstatus. unfold fetch_arxiv_papers. rewrite Hget. simpl.
  rewrite Hstatus. reflexivity.
Qed.

(** The papers that [fetch_arxiv_papers] returns are parsed entries. *)
Lemma fetch_parsed client_get BeautifulSoup (q : string) (n : Z) (papers : list Paper) :
  fetch_arxiv_papers client_get BeautifulSoup q n = Ok papers ->
  exists entries, Forall2 (fun e p => parse_entry e = Ok p) entries papers.
Proof.
  unfold fetch_arxiv_papers.
  destruct (client_get _ _) as [resp|]; simpl; [|discriminate].
  destruct (raise_for_status resp); simpl; [|discriminate].
  intros H. eexists. apply comprehension_Forall2, H.
Qed.

(** C10: every paper that the feed parser returns has its [link] equal to
    its [id]: the text of the entry's identifier is stored under both keys,
    whether or not the entry has a link element. *)
Theorem fetched_link_is_id client_get BeautifulSoup (q : string) (n : Z) (papers : list Paper) :
  fetch_arxiv_papers client_get BeautifulSoup q n = Ok papers ->
  Forall (fun p => exists id, paper_id p = Some id /\ paper_link p = Some id) papers.
Proof.
  intros H. destruct (fetch_parsed _ _ _ _ _ H) as [entries HF].
  clear H. induction HF as [|e p es ps Hp _ IH]; [constructor|].
  constructor; [exact (parse_entry_link e p Hp)|exact IH].
Qed.

Lemma fetched_link_is_id_witness :
  fetch_arxiv_papers Sample.client_get
    (Sample.parsed [Sample.entry_without_link; Sample.entry]) "graphs" 2
  = Ok [Sample.paper2; Sample.paper]
  /\ Forall (fun p => exists id, paper_id p = Some id /\ paper_link p = Some id)
       [Sample.paper2; Sample.paper].
Proof.
  split; [reflexivity|].
  apply (fetched_link_is_id Sample.client_get
           (Sample.parsed [Sample.entry_without_link; Sample.entry]) "graphs" 2).
  reflexivity.
Defined.

(** C4, as the code has it: the feed parser skips no entry.  Once the feed
    has answered with a success status, an entry needs its [id], [title],
    [summary] and [published] elements and nothing else (a link element is
    never read): when every entry has them, the papers are the parsed
    entries, one for one and in feed order; otherwise the whole fetch fails
    with the attribute error of the missing element. *)
Theorem fetch_skips_no_entry client_get BeautifulSoup (q : string) (n : Z) (resp : Response) :
  client_get ARXIV_BASE (params q n) = Some resp ->
  raise_for_status resp = Ok tt ->
  let entries := Soup.find_all "entry" (BeautifulSoup (text resp)) in
  if forallb complete_entry entries
  then exists papers,
         fetch_arxiv_papers client_get BeautifulSoup q n = Ok papers
         /\ Forall2 (fun e p => parse_entry e = Ok p) entries papers
  else fetch_arxiv_papers client_get BeautifulSoup q n = Err (AttributeError "text").
Proof.
  intros Hget Hstatus entries.
  rewrite (fetch_answered _ _ _ _ _ Hget Hstatus). fold entries.
  destruct (forallb complete_entry entries) eqn:Hall.
  - assert (exists papers, Forall2 (fun e p => parse_entry e = Ok p) entries papers)
      as [papers HF].
    { clear -Hall. induction entries as [|e es IH]; [exists []; constructor|].
      simpl in Hall. apply andb_true_iff in Hall as [He Hes].
      destruct (parse_entry_complete _ He) as [p Hp].
      destruct (IH Hes) as [ps Hps]. exists (p :: ps). constructor; assumption. }
    exists papers. split; [apply comprehension_Ok|]; assumption.
  - apply comprehension_Err; [apply parse_entry_error|].
    clear -Hall. induction entries as [|e es IH]; [discriminate|].
    simpl in Hall. apply andb_false_iff in Hall as [He|Hes].
    + left. apply parse_entry_incomplete, He.
    + right. apply IH, Hes.
Qed.

Lemma fetch_skips_no_entry_witness :
  Soup.find "link" Sample.entry_without_link = None
  /\ exists papers,
       fetch_arxiv_papers Sample.client_get
         (Sample.parsed [Sample.entry_without_link; Sample.entry]) "graphs" 2 = Ok papers
       /\ Forall2 (fun e p => parse_entry e = Ok p)
            [Sample.entry_without_link; Sample.entry] papers.
Proof.
  split; [reflexivity|].
  exact (fetch_skips_no_entry Sample.client_get
           (Sample.parsed [Sample.entry_without_link; Sample.entry]) "graphs" 2
           Sample.response eq_refl eq_refl).
Defined.

(** C4, as the specification has it, fails twice over: an entry without a
    link element is returned like any other, and an entry without an
    identifier is not skipped but makes the fetch fail, so that the
    well-formed entry next to it is lost. *)
Lemma malformed_entry_not_skipped :
  (Soup.find "link" Sample.entry_without_link = None
   /\ fetch_arxiv_papers Sample.client_get
        (Sample.parsed [Sample.entry_without_link; Sample.entry]) "graphs" 2
      = Ok [Sample.paper2; Sample.paper])
  /\ (Soup.find "id" Sample.entry_without_id = None
      /\ complete_entry Sample.entry = true
      /\ fetch_arxiv_papers Sample.client_get
           (Sample.parsed [Sample.entry_without_id; Sample.entry]) "graphs" 2
         = Err (AttributeError "text")).
Proof. repeat split. Qed.

(** ** The citation formatter *)

Lemma split_not_nil (sep : ascii) (s : string) : Py.split sep s <> [].
Proof.
  induction s as [|c s IH]; simpl; [discriminate|].
  destruct (Ascii.eqb c sep); [discriminate|].
  destruct (Py.split sep s); discriminate.
Qed.

Lemma last_segment (sep : ascii) (s : string) :
  exists key, Py.index_last (Py.split sep s) = Ok key.
Proof.
  unfold Py.index_last.
  destruct (last (Py.split sep s)) as [key|] eqn:E; [eauto|].
  apply last_None in E. destruct (split_not_nil _ _ E).
Qed.

(** C3, as the code has it: the year is the first four characters of
    [published] (all of it when it is shorter) whenever [published] is not
    empty, digits or not, and ["n.d."] when [published] is absent or empty;
    in particular it is the leading four-digit token when there is one. *)
Theorem year_is_prefix (p : Paper) :
  let published := default "" (paper_published p) in
  year p = (if String.eqb published "" then "n.d." else Py.slice_to 4 published)
  /\ (four_digit_token (Py.slice_to 4 published) = true ->
      year p = Py.slice_to 4 published).
Proof.
  intros published. unfold year. fold published.
  destruct published as [|c s]; split; try reflexivity.
  discriminate.
Qed.

Lemma year_is_prefix_witness :
  four_digit_token "2024" = true /\ year Sample.paper = "2024".
Proof.
  split; [reflexivity|].
  exact (proj2 (year_is_prefix Sample.paper) eq_refl).
Defined.

(** C3, as the specification has it, fails on a date that does not start
    with four digits: its first four characters are the year all the same. *)
Lemma year_not_validated :
  paper_published Sample.undated_paper = Some "Jan 4, 2024"
  /\ four_digit_token (Py.slice_to 4 "Jan 4, 2024") = false
  /\ year Sample.undated_paper = "Jan "
  /\ year Sample.undated_paper <> "n.d.".
Proof. repeat split. discriminate. Qed.

(** C5, as the code has it: the citation formatter succeeds on every paper
    that has an [id] (an absent title or link is printed as [None]), and on
    a paper without [id] it fails with the attribute error of [split];
    there is no other failure. *)
Theorem format_citations_needs_id (p : Paper) :
  match paper_id p with
  | Some _ => exists c, format_citations p = Ok c
  | None => format_citations p = Err (AttributeError "split")
  end.
Proof.
  unfold format_citations. destruct (paper_id p) as [id|]; simpl; [|reflexivity].
  destruct (last_segment "/" id) as [key ->]. simpl. eauto.
Qed.

(** C5, as the specification has it, fails on a paper without title: the
    formatter succeeds on it, printing [None] where the title goes. *)
Lemma untitled_paper_formatted :
  paper_title Sample.untitled_paper = None
  /\ exists c, format_citations Sample.untitled_paper = Ok c
       /\ apa c = "Ada Lovelace (2024). None. arXiv. http://arxiv.org/abs/2401.00005v1".
Proof. split; [reflexivity|]. eexists. split; reflexivity. Qed.

(** C7: for a paper with [id], [title] and [link], the [apa] string is the
    authors joined by [", "] in byline order, then [" (year). title.
    arXiv. link"]; with an empty byline it starts with the blank before the
    parenthesis, the author segment being the empty string. *)
Theorem apa_format (p : Paper) (id title link : string) :
  paper_id p = Some id ->
  paper_title p = Some title ->
  paper_link p = Some link ->
  exists c,
    format_citations p = Ok c
    /\ apa c = Py.join ", " (default [] (paper_authors p))
               +:+ " (" +:+ year p +:+ "). " +:+ title +:+ ". arXiv. " +:+ link
    /\ (default [] (paper_authors p) = [] ->
        apa c = " (" +:+ year p +:+ "). " +:+ title +:+ ". arXiv. " +:+ link).
Proof.
  intros Hid Htitle Hlink. unfold format_citations. rewrite Hid, Htitle, Hlink. simpl.
  destruct (last_segment "/" id) as [key ->]. simpl.
  eexists. split; [reflexivity|]. simpl. unfold author_str.
  split; [reflexivity|]. intros ->. reflexivity.
Qed.

Lemma apa_format_witness :
  exists c,
    format_citations Sample.anonymous_paper = Ok c
    /\ apa c = " (2024). Spectral Methods. arXiv. http://arxiv.org/abs/2401.00003v1".
Proof.
  destruct (apa_format Sample.anonymous_paper _ _ _ eq_refl eq_refl eq_refl)
    as [c [Hc [_ Ha]]].
  exists c. split; [exact Hc|exact (Ha eq_refl)].
Defined.

(** ** Identifiers of nodes *)

Lemma to_string_inj (i k : nat) : Js.to_string i = Js.to_string k -> i = k.
Proof.
  unfold Js.to_string. intros H.
  apply DecimalNat.Unsigned.to_uint_inj.
  assert (Some (Nat.to_uint i) = Some (Nat.to_uint k)) as [= E]; [|exact E].
  rewrite <- !NilEmpty.usu. rewrite H. reflexivity.
Qed.

Lemma lacks_b_uint (d : Decimal.uint) : lacks "b" (NilEmpty.string_of_uint d) = true.
Proof. induction d; simpl; auto. Qed.

Lemma lacks_b_to_string (i : nat) : lacks "b" (Js.to_string i) = true.
Proof. apply lacks_b_uint. Qed.

Lemma lacks_app (c : ascii) (u r : string) : lacks c (u +:+ String c r) = false.
Proof.
  induction u as [|a u IH]; simpl.
  - rewrite Ascii.eqb_refl. reflexivity.
  - rewrite IH. apply andb_false_r.
Qed.

Lemma lacks_app_inj (c : ascii) (u u' r r' : string) :
  lacks c u = true -> lacks c u' = true ->
  u +:+ String c r = u' +:+ String c r' -> u = u'.
Proof.
  revert u'. induction u as [|a u IH]; intros [|a' u']; simpl; intros Hu Hu' E.
  - reflexivity.
  - injection E as <- _. rewrite Ascii.eqb_refl in Hu'. discriminate.
  - injection E as -> _. rewrite Ascii.eqb_refl in Hu. discriminate.
  - apply andb_true_iff in Hu as [_ Hu]. apply andb_true_iff in Hu' as [_ Hu'].
    injection E as -> E. f_equal. eauto.
Qed.

Lemma prefix_app (p s : string) : String.prefix p (p +:+ s) = true.
Proof.
  induction p as [|a p IH]; simpl; [destruct s; reflexivity|].
  destruct (ascii_dec a a); [exact IH|congruence].
Qed.

Lemma prefix_inv (p s : string) : String.prefix p s = true -> exists r, s = p +:+ r.
Proof.
  revert s. induction p as [|a p IH]; intros s H; [exists s; reflexivity|].
  destruct s as [|b s]; simpl in H; [discriminate|].
  destruct (ascii_dec a b) as [->|]; [|discriminate].
  destruct (IH _ H) as [r ->]. exists r. reflexivity.
Qed.

Lemma append_nil_l (s : string) : "" +:+ s = s.
Proof. reflexivity. Qed.

Lemma append_cons (a : ascii) (s r : string) : String a s +:+ r = String a (s +:+ r).
Proof. reflexivity. Qed.

Lemma append_assoc (u v r : string) : (u +:+ v) +:+ r = u +:+ (v +:+ r).
Proof. induction u as [|a u IH]; [reflexivity|]. rewrite !append_cons, IH. reflexivity. Qed.

Lemma paper_id_inj (i k : nat) :
  String.eqb ("p" +:+ Js.to_string k) ("p" +:+ Js.to_string i) = (i =? k)%nat.
Proof.
  destruct (Nat.eqb_spec i k) as [->|Hne]; [apply String.eqb_refl|].
  apply String.eqb_neq. rewrite !append_cons, !append_nil_l. intros [= E].
  apply Hne. symmetry. apply to_string_inj, E.
Qed.

Lemma bullet_id_not_paper_id (i k j : nat) :
  String.eqb ("p" +:+ Js.to_string k +:+ "b" +:+ Js.to_string j) ("p" +:+ Js.to_string i)
  = false.
Proof.
  apply String.eqb_neq. rewrite !append_cons, !append_nil_l. intros [= E].
  pose proof (lacks_b_to_string i) as H. rewrite <- E in H.
  rewrite lacks_app in H. discriminate.
Qed.

Lemma paper_id_not_bullet_prefix (i k : nat) :
  String.prefix ("p" +:+ Js.to_string i +:+ "b") ("p" +:+ Js.to_string k) = false.
Proof.
  destruct (String.prefix _ _) eqn:E; [|reflexivity].
  apply prefix_inv in E as [r E].
  rewrite !append_cons, !append_nil_l, append_assoc, append_cons, append_nil_l in E.
  injection E as E.
  pose proof (lacks_b_to_string k) as H. rewrite E in H.
  rewrite lacks_app in H. discriminate.
Qed.

Lemma bullet_id_prefix (i k j : nat) :
  String.prefix ("p" +:+ Js.to_string i +:+ "b")
    ("p" +:+ Js.to_string k +:+ "b" +:+ Js.to_string j) = (i =? k)%nat.
Proof.
  destruct (Nat.eqb_spec i k) as [->|Hne].
  - pose proof (prefix_app ("p" +:+ Js.to_string k +:+ "b") (Js.to_string j)) as H.
    rewrite !append_assoc in H. exact H.
  - destruct (String.prefix _ _) eqn:E; [|reflexivity].
    apply prefix_inv in E as [r E].
    rewrite !append_cons, !append_nil_l, append_assoc, append_cons, append_nil_l in E.
    injection E as E.
    destruct Hne. apply to_string_inj. symmetry.
    eapply lacks_app_inj; [apply lacks_b_to_string|apply lacks_b_to_string|exact E].
Qed.

(** ** The loops of [buildFlowElements] *)

Lemma prop_title (p : Paper) : Js.prop "title" (json_of_paper p) = Ok (title_of p).
Proof. destruct p as [[?|] [?|] [?|] [?|] [?|] [?|]]; reflexivity. Qed.

Lemma prop_papers (ps : list Paper) (ds : list Digest) (cs : list Citation) :
  Js.prop "papers" (json_of_bundle (bundle_of ps ds cs))
  = Ok (Js.Array (List.map json_of_paper ps)).
Proof. reflexivity. Qed.

Lemma bullets_of_bundle (ps : list Paper) (ds : list Digest) (cs : list Citation) (i : nat) :
  bullets_of (json_of_bundle (bundle_of ps ds cs)) i = Ok (json_strings (bullets_at ds i)).
Proof.
  unfold bullets_of, bullets_at.
  change (Js.prop "summaries" (json_of_bundle (bundle_of ps ds cs)))
    with (Ok (Js.Array (json_of_digest <$> ds))).
  cbn [bind Js.index]. rewrite list_lookup_fmap.
  destruct (ds !! i) as [d|]; reflexivity.
Qed.

Lemma forEach_bullets (i : nat) (bs : list string) (j0 : nat) (ns : list Node) (es : list Edge) :
  Js.forEach_from (each_bullet i) (List.map Js.Str bs) j0 (ns, es)
  = Ok (ns ++ imap (fun j b => bullet_node i (j0 + j) (Js.Str b)) bs,
        es ++ imap (fun j _ => bullet_edge i (j0 + j)) bs).
Proof.
  revert j0 ns es. induction bs as [|b bs IH]; intros j0 ns es.
  - cbn. rewrite !app_nil_r. reflexivity.
  - cbn [List.map Js.forEach_from each_bullet bind]. rewrite IH.
    rewrite !imap_cons, <- !app_assoc, !Nat.add_0_r. cbn [app].
    do 3 f_equal.
    + f_equal. apply imap_ext. intros j x _. cbn. rewrite Nat.add_succ_r. reflexivity.
    + f_equal. apply imap_ext. intros j x _. cbn. rewrite Nat.add_succ_r. reflexivity.
Qed.

Lemma each_paper_bundle (ps : list Paper) (ds : list Digest) (cs : list Citation)
    (p : Paper) (i : nat) (ns : list Node) (es : list Edge) :
  each_paper (json_of_bundle (bundle_of ps ds cs)) (json_of_paper p) i (ns, es)
  = Ok (ns ++ paper_node i (title_of p) :: bullet_nodes i (bullets_at ds i),
        es ++ bullet_edges i (bullets_at ds i)).
Proof.
  unfold each_paper. rewrite prop_title. cbn [bind].
  rewrite bullets_of_bundle. cbn [bind]. unfold json_strings, Js.forEach.
  rewrite forEach_bullets, <- app_assoc. reflexivity.
Qed.

Lemma forEach_papers (ps0 : list Paper) (ds : list Digest) (cs : list Citation)
    (ps : list Paper) (i : nat) (ns : list Node) (es : list Edge) :
  Js.forEach_from (each_paper (json_of_bundle (bundle_of ps0 ds cs)))
    (List.map json_of_paper ps) i (ns, es)
  = Ok (ns ++ nodes_from i ps ds, es ++ edges_from i ps ds).
Proof.
  revert i ns es. induction ps as [|p ps IH]; intros i ns es.
  - cbn. rewrite !app_nil_r. reflexivity.
  - cbn [List.map Js.forEach_from]. rewrite each_paper_bundle. cbn [bind].
    rewrite IH. cbn [nodes_from edges_from]. rewrite <- !app_assoc. reflexivity.
Qed.

Lemma flow_arrays_bundle (ps : list Paper) (ds : list Digest) (cs : list Citation) :
  flow_arrays (json_of_bundle (bundle_of ps ds cs))
  = Ok (nodes_from 0 ps ds, edges_from 0 ps ds).
Proof.
  unfold flow_arrays. rewrite prop_papers. cbn [bind Js.forEach].
  apply forEach_papers.
Qed.

Lemma nodes_of_elements (ns : list Node) (es : list Edge) :
  nodes_of (List.map NodeElement ns ++ List.map EdgeElement es) = ns.
Proof.
  unfold nodes_of. rewrite omap_app.
  assert (omap (fun x => match x with NodeElement n => Some n | EdgeElement _ => None end)
            (List.map EdgeElement es) = []) as ->.
  { induction es; [reflexivity|assumption]. }
  rewrite app_nil_r. induction ns as [|n ns IH]; [reflexivity|].
  cbn. f_equal. exact IH.
Qed.

Lemma edges_of_elements (ns : list Node) (es : list Edge) :
  edges_of (List.map NodeElement ns ++ List.map EdgeElement es) = es.
Proof.
  unfold edges_of. rewrite omap_app.
  assert (omap (fun x => match x with EdgeElement e => Some e | NodeElement _ => None end)
            (List.map NodeElement ns) = []) as ->.
  { induction ns; [reflexivity|assumption]. }
  induction es as [|e es IH]; [reflexivity|].
  cbn. f_equal. exact IH.
Qed.

(** The graph of a bundle: the nodes, then the edges. *)
Lemma buildFlowElements_bundle (ps : list Paper) (ds : list Digest) (cs : list Citation) :
  buildFlowElements (json_of_bundle (bundle_of ps ds cs))
  = Ok (List.map NodeElement (nodes_from 0 ps ds)
        ++ List.map EdgeElement (edges_from 0 ps ds)).
Proof.
  unfold buildFlowElements. rewrite flow_arrays_bundle. reflexivity.
Qed.

(** ** Whose node, whose edge *)

Lemma is_paper_node_paper (i k : nat) (t : Js.value) :
  is_paper_node i (paper_node k t) = (i =? k)%nat.
Proof. apply paper_id_inj. Qed.

Lemma is_paper_node_bullet (i k j : nat) (b : Js.value) :
  is_paper_node i (bullet_node k j b) = false.
Proof. apply bullet_id_not_paper_id. Qed.

Lemma is_bullet_node_paper (i k : nat) (t : Js.value) :
  is_bullet_node i (paper_node k t) = false.
Proof. apply paper_id_not_bullet_prefix. Qed.

Lemma is_bullet_node_bullet (i k j : nat) (b : Js.value) :
  is_bullet_node i (bullet_node k j b) = (i =? k)%nat.
Proof. apply bullet_id_prefix. Qed.

Lemma leaves_bullet_edge (i k j : nat) : leaves i (bullet_edge k j) = (i =? k)%nat.
Proof. apply paper_id_inj. Qed.

Lemma filter_imap_const {A B : Type} (f : B -> bool) (g : nat -> A -> B) (l : list A)
    (c : bool) :
  (forall j x, f (g j x) = c) ->
  List.filter f (imap g l) = if c then imap g l else [].
Proof.
  revert g. induction l as [|x l IH]; intros g Hg; [destruct c; reflexivity|].
  rewrite imap_cons. cbn [List.filter]. rewrite Hg, IH by (intros; apply Hg).
  destruct c; reflexivity.
Qed.

Lemma Forall2_imap {A B C : Type} (R : B -> C -> Prop) (f : nat -> A -> B)
    (g : nat -> A -> C) (l : list A) :
  (forall j x, R (f j x) (g j x)) -> Forall2 R (imap f l) (imap g l).
Proof.
  revert f g. induction l as [|x l IH]; intros f g H; [constructor|].
  rewrite !imap_cons. constructor; [apply H|]. apply IH. intros; apply H.
Qed.

Lemma imap_same_length {A B C : Type} (f : nat -> A -> C) (g : nat -> B -> C)
    (l : list A) (k : list B) :
  (forall j x y, f j x = g j y) -> length l = length k -> imap f l = imap g k.
Proof.
  revert f g k. induction l as [|x l IH]; intros f g [|y k] H Hlen;
    try discriminate; [reflexivity|].
  rewrite !imap_cons. f_equal; [apply H|].
  apply IH; [intros; apply H|]. injection Hlen as Hlen. exact Hlen.
Qed.

Section Filters.

Variables (i : nat) (ds : list Digest).

Lemma filter_paper_node (ps : list Paper) (i0 : nat) :
  List.filter (is_paper_node i) (nodes_from i0 ps ds)
  = if decide (i0 <= i)
    then from_option (fun p => [paper_node i (title_of p)]) [] (ps !! (i - i0))
    else [].
Proof.
  revert i0. induction ps as [|p ps IH]; intros i0; [case_decide; reflexivity|].
  cbn [nodes_from app List.filter]. rewrite List.filter_app, IH, is_paper_node_paper.
  unfold bullet_nodes.
  rewrite (filter_imap_const _ _ _ false) by (intros; apply is_paper_node_bullet).
  destruct (Nat.eqb_spec i i0) as [->|Hne].
  - rewrite Nat.sub_diag. repeat case_decide; try lia. reflexivity.
  - repeat case_decide; try lia; try reflexivity.
    replace (i - i0) with (S (i - S i0)) by lia. reflexivity.
Qed.

Lemma filter_bullet_node (ps : list Paper) (i0 : nat) :
  List.filter (is_bullet_node i) (nodes_from i0 ps ds)
  = if decide (i0 <= i)
    then from_option (fun _ => bullet_nodes i (bullets_at ds i)) [] (ps !! (i - i0))
    else [].
Proof.
  revert i0. induction ps as [|p ps IH]; intros i0; [case_decide; reflexivity|].
  cbn [nodes_from app List.filter]. rewrite List.filter_app, IH, is_bullet_node_paper.
  unfold bullet_nodes at 1.
  rewrite (filter_imap_const _ _ _ (i =? i0)%nat) by (intros; apply is_bullet_node_bullet).
  destruct (Nat.eqb_spec i i0) as [->|Hne].
  - rewrite Nat.sub_diag. repeat case_decide; try lia. cbn. apply app_nil_r.
  - repeat case_decide; try lia; try reflexivity.
    replace (i - i0) with (S (i - S i0)) by lia. reflexivity.
Qed.

Lemma filter_leaves (ps : list Paper) (i0 : nat) :
  List.filter (leaves i) (edges_from i0 ps ds)
  = if decide (i0 <= i)
    then from_option (fun _ => bullet_edges i (bullets_at ds i)) [] (ps !! (i - i0))
    else [].
Proof.
  revert i0. induction ps as [|p ps IH]; intros i0; [case_decide; reflexivity|].
  cbn [edges_from]. rewrite List.filter_app, IH.
  unfold bullet_edges at 1.
  rewrite (filter_imap_const _ _ _ (i =? i0)%nat) by (intros; apply leaves_bullet_edge).
  destruct (Nat.eqb_spec i i0) as [->|Hne].
  - rewrite Nat.sub_diag. repeat case_decide; try lia. cbn. apply app_nil_r.
  - repeat case_decide; try lia; try reflexivity.
    replace (i - i0) with (S (i - S i0)) by lia. reflexivity.
Qed.

End Filters.

Lemma nodes_from_length (ps : list Paper) (ds : list Digest) (i : nat) :
  length (nodes_from i ps ds) = length ps + length (edges_from i ps ds).
Proof.
  revert i. induction ps as [|p ps IH]; intros i; [reflexivity|].
  cbn [nodes_from edges_from app length]. rewrite !length_app, IH.
  unfold bullet_nodes, bullet_edges. rewrite !length_imap. lia.
Qed.

Lemma edges_from_length (ps : list Paper) (ds : list Digest) (i : nat) :
  length ps = length (drop i ds) ->
  length (edges_from i ps ds) = sum_list (bullet_count <$> drop i ds).
Proof.
  revert i. induction ps as [|p ps IH]; intros i Hlen.
  - destruct (drop i ds); [reflexivity|discriminate].
  - destruct (ds !! i) as [d|] eqn:Hd.
    + rewrite (drop_S _ _ _ Hd) in Hlen |- *. injection Hlen as Hlen.
      cbn [edges_from]. rewrite length_app, IH by exact Hlen.
      unfold bullet_edges, bullets_at. rewrite length_imap, Hd. reflexivity.
    + apply lookup_ge_None in Hd. rewrite drop_ge in Hlen by exact Hd. discriminate.
Qed.

(** Every node is the node of a paper or of a bullet, at an index not below
    the first, and carries nothing else than its label. *)
Lemma nodes_from_keys (ps : list Paper) (ds : list Digest) (i0 : nat) :
  Forall (fun n => exists i, i0 <= i
                     /\ (n = paper_node i (node_label n)
                         \/ exists j, n = bullet_node i j (node_label n)))
    (nodes_from i0 ps ds).
Proof.
  revert i0. induction ps as [|p ps IH]; intros i0; [constructor|].
  cbn [nodes_from app]. constructor; [exists i0; split; [lia|left; reflexivity]|].
  apply Forall_app. split.
  - apply Forall_forall. intros n Hn. unfold bullet_nodes in Hn.
    apply elem_of_lookup_imap_1 in Hn as (j & b & -> & _).
    exists i0. split; [lia|right; exists j; reflexivity].
  - eapply Forall_impl; [apply IH|]. intros n (i & Hi & H). exists i. split; [lia|exact H].
Qed.

Lemma edges_from_keys (ps : list Paper) (ds : list Digest) (i0 : nat) :
  Forall (fun e => exists i j, e = bullet_edge i j) (edges_from i0 ps ds).
Proof.
  revert i0. induction ps as [|p ps IH]; intros i0; [constructor|].
  cbn [edges_from]. apply Forall_app. split; [|apply IH].
  apply Forall_forall. intros e He. unfold bullet_edges in He.
  apply elem_of_lookup_imap_1 in He as (j & b & -> & _). eauto.
Qed.

(** ** The mind map *)

(** C6: on aligned papers and digests the graph is built without error,
    and for the paper at index [i], whose digest has [b] bullets, it has
    exactly one paper node, exactly [b] bullet nodes, labelled with the
    bullets in their order, and exactly [b] edges leaving the paper node,
    the [j]-th of them to the [j]-th bullet node; so a paper with an empty
    digest has its node and nothing else.  There is nothing more in the
    graph: one node per paper and per bullet, one edge per bullet. *)
Theorem graph_shape (ps : list Paper) (ds : list Digest) (cs : list Citation) :
  length ds = length ps ->
  exists g,
    buildFlowElements (json_of_bundle (bundle_of ps ds cs)) = Ok g
    /\ length (nodes_of g) = length ps + length (edges_of g)
    /\ length (edges_of g) = sum_list (bullet_count <$> ds)
    /\ forall i p d, ps !! i = Some p -> ds !! i = Some d ->
         let own_nodes := List.filter (is_bullet_node i) (nodes_of g) in
         let own_edges := List.filter (leaves i) (edges_of g) in
         List.filter (is_paper_node i) (nodes_of g) = [paper_node i (title_of p)]
         /\ length own_nodes = bullet_count d
         /\ node_label <$> own_nodes = Js.Str <$> bullets d
         /\ length own_edges = bullet_count d
         /\ Forall2 (fun e n => edge_source e = node_id (paper_node i (title_of p))
                                /\ edge_target e = node_id n)
              own_edges own_nodes
         /\ (bullets d = [] -> own_nodes = [] /\ own_edges = []).
Proof.
  intros Hlen. eexists. split; [apply buildFlowElements_bundle|].
  rewrite nodes_of_elements, edges_of_elements.
  split; [apply nodes_from_length|].
  split; [apply (edges_from_length ps ds 0); symmetry; exact Hlen|].
  intros i p d Hp Hd own_nodes own_edges. subst own_nodes own_edges.
  rewrite filter_paper_node, filter_bullet_node, filter_leaves.
  destruct (decide (0 <= i)); [|lia]. rewrite Nat.sub_0_r, Hp. cbn [from_option].
  unfold bullets_at. rewrite Hd. cbn [from_option].
  unfold bullet_nodes, bullet_edges, bullet_count. rewrite !length_imap.
  split; [reflexivity|]. split; [reflexivity|].
  split; [rewrite fmap_imap; apply imap_const|]. split; [reflexivity|].
  split; [apply Forall2_imap; intros; split; reflexivity|].
  intros ->. split; reflexivity.
Qed.

Lemma graph_shape_witness :
  exists g,
    buildFlowElements
      (json_of_bundle (bundle_of [Sample.paper; Sample.anonymous_paper]
                         [Sample.digest; empty_digest] [])) = Ok g
    /\ List.filter (is_paper_node 0) (nodes_of g) = [paper_node 0 (title_of Sample.paper)]
    /\ length (List.filter (is_bullet_node 0) (nodes_of g)) = 2
    /\ length (List.filter (leaves 0) (edges_of g)) = 2
    /\ length (List.filter (is_bullet_node 1) (nodes_of g)) = 0
    /\ length (List.filter (leaves 1) (edges_of g)) = 0.
Proof.
  destruct (graph_shape [Sample.paper; Sample.anonymous_paper]
              [Sample.digest; empty_digest] [] eq_refl) as (g & Hg & _ & _ & H).
  exists g. split; [exact Hg|].
  destruct (H 0 Sample.paper Sample.digest eq_refl eq_refl) as (H1 & H2 & _ & H3 & _).
  destruct (H 1 Sample.anonymous_paper empty_digest eq_refl eq_refl)
    as (_ & H4 & _ & H5 & _).
  repeat split; assumption.
Defined.

(** C9: every node of the graph is [paper_node i] or [bullet_node i j] of
    its label, and every edge is [bullet_edge i j]: identifiers, types and
    positions are functions of the indices.  So they depend on nothing but
    the number of papers and the number of bullets of each: two bundles of
    the same shape give the same graph up to the labels, and two bundles
    with the same papers and digests give the same graph. *)
Theorem graph_deterministic (ps1 ps2 : list Paper) (ds1 ds2 : list Digest)
    (cs1 cs2 : list Citation) :
  length ps1 = length ps2 ->
  bullet_count <$> ds1 = bullet_count <$> ds2 ->
  exists g1 g2,
    buildFlowElements (json_of_bundle (bundle_of ps1 ds1 cs1)) = Ok g1
    /\ buildFlowElements (json_of_bundle (bundle_of ps2 ds2 cs2)) = Ok g2
    /\ Forall (fun n => exists i, n = paper_node i (node_label n)
                                  \/ exists j, n = bullet_node i j (node_label n))
         (nodes_of g1)
    /\ Forall (fun e => exists i j, e = bullet_edge i j) (edges_of g1)
    /\ erase_label <$> g1 = erase_label <$> g2
    /\ (ps1 = ps2 -> ds1 = ds2 -> g1 = g2).
Proof.
  intros Hps Hds. do 2 eexists.
  split; [apply buildFlowElements_bundle|]. split; [apply buildFlowElements_bundle|].
  rewrite nodes_of_elements, edges_of_elements.
  split.
  { eapply Forall_impl; [apply nodes_from_keys|]. intros n (i & _ & H). eauto. }
  split; [apply edges_from_keys|].
  split; [|intros -> ->; reflexivity].
  assert (forall i, length (bullets_at ds1 i) = length (bullets_at ds2 i)) as Hb.
  { intros i. unfold bullets_at.
    assert ((bullet_count <$> ds1) !! i = (bullet_count <$> ds2) !! i) as E
      by (rewrite Hds; reflexivity).
    rewrite !list_lookup_fmap in E.
    destruct (ds1 !! i), (ds2 !! i); cbn in E |- *; unfold bullet_count in E; congruence. }
  clear Hds. rewrite !fmap_app. f_equal.
  - change (List.map NodeElement ?l) with (NodeElement <$> l).
    rewrite <- !list_fmap_compose.
    change (erase_label ∘ NodeElement) with (NodeElement ∘ unlabelled).
    rewrite !list_fmap_compose. f_equal.
    generalize 0 as i. revert ps2 Hps.
    induction ps1 as [|p1 ps1 IH]; intros [|p2 ps2] Hps i; try discriminate;
      [reflexivity|].
    cbn [nodes_from app]. rewrite !fmap_cons, !fmap_app.
    apply (f_equal2 cons); [reflexivity|]. apply (f_equal2 app).
    + unfold bullet_nodes. rewrite !fmap_imap. apply imap_same_length; [|apply Hb].
      reflexivity.
    + apply IH. injection Hps as Hps. exact Hps.
  - change (List.map EdgeElement ?l) with (EdgeElement <$> l).
    rewrite <- !list_fmap_compose.
    change (erase_label ∘ EdgeElement) with EdgeElement.
    generalize 0 as i. revert ps2 Hps.
    induction ps1 as [|p1 ps1 IH]; intros [|p2 ps2] Hps i; try discriminate;
      [reflexivity|].
    cbn [edges_from]. rewrite !fmap_app. apply (f_equal2 app).
    + unfold bullet_edges. rewrite !fmap_imap.
      apply imap_same_length; [|apply Hb]. reflexivity.
    + apply IH. injection Hps as Hps. exact Hps.
Qed.

Lemma graph_deterministic_witness :
  exists g1 g2,
    buildFlowElements
      (json_of_bundle (bundle_of [Sample.paper; Sample.anonymous_paper]
                         [Sample.digest; empty_digest] [])) = Ok g1
    /\ buildFlowElements
         (json_of_bundle (bundle_of [Sample.paper2; Sample.untitled_paper]
                            [Sample.digest2; empty_digest] [])) = Ok g2
    /\ erase_label <$> g1 = erase_label <$> g2.
Proof.
  destruct (graph_deterministic [Sample.paper; Sample.anonymous_paper]
              [Sample.paper2; Sample.untitled_paper]
              [Sample.digest; empty_digest] [Sample.digest2; empty_digest] [] []
              eq_refl eq_refl) as (g1 & g2 & H1 & H2 & _ & _ & H & _).
  exists g1, g2. repeat split; assumption.
Defined.

(** ** The search endpoint *)

(** What a search that returns has computed. *)
Lemma search_returned client_get BeautifulSoup summarizer (req : SearchRequest) (b : Bundle) :
  search client_get BeautifulSoup summarizer req = Returned b ->
  exists ps ds cs,
    b = bundle_of ps ds cs
    /\ fetch_arxiv_papers client_get BeautifulSoup (query req) (max_results req) = Ok ps
    /\ summarizer ps = Ok ds
    /\ comprehension format_citations ps = Ok cs.
Proof.
  unfold search.
  destruct (fetch_arxiv_papers _ _ _ _) as [ps|]; cbn [bind]; [|discriminate].
  destruct (summarizer ps) as [ds|] eqn:Hds; cbn [bind]; [|discriminate].
  destruct (comprehension format_citations ps) as [cs|] eqn:Hcs; cbn [bind];
    [|discriminate].
  intros [= <-]. exists ps, ds, cs. repeat split; assumption.
Qed.

Lemma search_returns client_get BeautifulSoup summarizer (req : SearchRequest)
    (ps : list Paper) (ds : list Digest) (cs : list Citation) :
  fetch_arxiv_papers client_get BeautifulSoup (query req) (max_results req) = Ok ps ->
  summarizer ps = Ok ds ->
  comprehension format_citations ps = Ok cs ->
  search client_get BeautifulSoup summarizer req = Returned (bundle_of ps ds cs).
Proof.
  intros Hps Hds Hcs. unfold search.
  rewrite Hps. cbn [bind]. rewrite Hds. cbn [bind]. rewrite Hcs. reflexivity.
Qed.

(** Making the call for the paper at index [k] fail empties the digest at
    index [k] and leaves the others as they are. *)
Lemma summarize_papers_failing (service service' : nat -> Paper -> option string)
    (parse_reply : string -> option Digest) (k : nat) (ps : list Paper) :
  (forall i p, i <> k -> service' i p = service i p) ->
  (forall p, service' k p = None
             \/ exists reply, service' k p = Some reply /\ parse_reply reply = None) ->
  imap (Summarizer.summarize_paper service' parse_reply) ps
  = <[k := empty_digest]> (imap (Summarizer.summarize_paper service parse_reply) ps).
Proof.
  intros Hother Hk. apply list_eq. intros i.
  destruct (decide (k = i)) as [<-|Hne].
  - rewrite list_lookup_imap.
    destruct (ps !! k) as [p|] eqn:Hp.
    + rewrite list_lookup_insert_eq
        by (rewrite length_imap; apply lookup_lt_Some in Hp; exact Hp).
      cbn. f_equal. unfold Summarizer.summarize_paper.
      destruct (Hk p) as [->|(reply & -> & ->)]; reflexivity.
    + apply lookup_ge_None in Hp. rewrite list_insert_ge by (rewrite length_imap; exact Hp).
      rewrite list_lookup_imap. apply lookup_ge_None in Hp. rewrite Hp. reflexivity.
  - rewrite list_lookup_insert_ne by exact Hne. rewrite !list_lookup_imap.
    destruct (ps !! i) as [p|]; [|reflexivity]. cbn. f_equal.
    unfold Summarizer.summarize_paper. rewrite Hother by congruence. reflexivity.
Qed.

(** C1: in the bundle of a successful search, with the summarizer of the
    specification, the three sequences have the same length, and at every
    index the digest is the one of the paper at that index and the citation
    is the one formatted from it. *)
Theorem search_aligned client_get BeautifulSoup (service : nat -> Paper -> option string)
    (parse_reply : string -> option Digest) (req : SearchRequest) (b : Bundle) :
  search client_get BeautifulSoup (Summarizer.summarize_papers service parse_reply) req
  = Returned b ->
  exists ps ds cs,
    b = [("papers", Papers ps); ("summaries", Summaries ds); ("citations", Citations cs)]
    /\ length ds = length ps
    /\ length cs = length ps
    /\ forall i p, ps !! i = Some p ->
         ds !! i = Some (Summarizer.summarize_paper service parse_reply i p)
         /\ exists c, cs !! i = Some c /\ format_citations p = Ok c.
Proof.
  intros H. apply search_returned in H as (ps & ds & cs & -> & _ & Hds & Hcs).
  exists ps, ds, cs. injection Hds as <-.
  apply comprehension_Forall2 in Hcs.
  split; [reflexivity|]. split; [apply length_imap|].
  split; [symmetry; apply (Forall2_length _ _ _ Hcs)|].
  intros i p Hp. split.
  - rewrite list_lookup_imap, Hp. reflexivity.
  - destruct (Forall2_lookup_l _ _ _ _ _ Hcs Hp) as (c & Hc & Hf). eauto.
Qed.

Lemma search_aligned_witness :
  exists ps ds cs,
    search Sample.client_get (Sample.parsed [Sample.entry_without_link; Sample.entry])
      (Summarizer.summarize_papers Sample.title_service Sample.parse_reply) Sample.request
    = Returned [("papers", Papers ps); ("summaries", Summaries ds); ("citations", Citations cs)]
    /\ length ds = 2 /\ length cs = 2 /\ ps = [Sample.paper2; Sample.paper].
Proof.
  destruct (search_aligned Sample.client_get
              (Sample.parsed [Sample.entry_without_link; Sample.entry])
              Sample.title_service Sample.parse_reply Sample.request _ eq_refl)
    as (ps & ds & cs & Hb & Hds & Hcs & _).
  injection Hb as <- <- <-.
  do 3 eexists. repeat split.
Defined.

(** C8: when the summarization call for the paper at index [k] is made to
    fail, or its reply cannot be parsed, a search that returned still
    returns: the same papers, the same citations, and the same digests but
    for the empty digest at index [k]. *)
Theorem summarization_failure_isolated client_get BeautifulSoup
    (service service' : nat -> Paper -> option string)
    (parse_reply : string -> option Digest) (k : nat) (req : SearchRequest) (b : Bundle) :
  (forall i p, i <> k -> service' i p = service i p) ->
  (forall p, service' k p = None
             \/ exists reply, service' k p = Some reply /\ parse_reply reply = None) ->
  search client_get BeautifulSoup (Summarizer.summarize_papers service parse_reply) req
  = Returned b ->
  exists ps ds cs,
    b = [("papers", Papers ps); ("summaries", Summaries ds); ("citations", Citations cs)]
    /\ search client_get BeautifulSoup (Summarizer.summarize_papers service' parse_reply) req
       = Returned [("papers", Papers ps);
                   ("summaries", Summaries (<[k := empty_digest]> ds));
                   ("citations", Citations cs)].
Proof.
  intros Hother Hk H. apply search_returned in H as (ps & ds & cs & -> & Hps & Hds & Hcs).
  exists ps, ds, cs. split; [reflexivity|]. injection Hds as <-.
  apply search_returns; [exact Hps| |exact Hcs].
  unfold Summarizer.summarize_papers. f_equal.
  apply summarize_papers_failing; assumption.
Qed.

Lemma summarization_failure_isolated_witness :
  exists ps ds cs,
    search Sample.client_get (Sample.parsed [Sample.entry_without_link; Sample.entry])
      (Summarizer.summarize_papers Sample.title_service Sample.parse_reply) Sample.request
    = Returned [("papers", Papers ps); ("summaries", Summaries ds); ("citations", Citations cs)]
    /\ ds = [ {| bullets := ["Message Passing"]; narrative := "" |};
              {| bullets := ["Graph Neural Networks"]; narrative := "" |} ]
    /\ search Sample.client_get (Sample.parsed [Sample.entry_without_link; Sample.entry])
         (Summarizer.summarize_papers (Sample.failing_at 0) Sample.parse_reply) Sample.request
       = Returned [("papers", Papers ps);
                   ("summaries", Summaries [ empty_digest;
                      {| bullets := ["Graph Neural Networks"]; narrative := "" |} ]);
                   ("citations", Citations cs)].
Proof.
  assert (forall i p, i <> 0 -> Sample.failing_at 0 i p = Sample.title_service i p) as H1.
  { intros [|i] p Hi; [destruct (Hi eq_refl)|reflexivity]. }
  assert (forall p, Sample.failing_at 0 0 p = None
                    \/ exists reply, Sample.failing_at 0 0 p = Some reply
                                     /\ Sample.parse_reply reply = None) as H2.
  { intros p. left. reflexivity. }
  destruct (summarization_failure_isolated Sample.client_get
              (Sample.parsed [Sample.entry_without_link; Sample.entry])
              Sample.title_service (Sample.failing_at 0) Sample.parse_reply 0
              Sample.request _ H1 H2 eq_refl) as (ps & ds & cs & Hb & H).
  injection Hb as <- <- <-.
  do 3 eexists. split; [reflexivity|]. split; [reflexivity|]. exact H.
Defined.

(** C2, as the code has it: the bundle that [search] returns has the three
    fields [papers], [summaries] and [citations], in that order, and no
    field [graph]; the graph is what the client builds from the bundle it
    has received, which never fails. *)
Theorem search_bundle_fields client_get BeautifulSoup summarizer (req : SearchRequest)
    (b : Bundle) :
  search client_get BeautifulSoup summarizer req = Returned b ->
  fst <$> b = ["papers"; "summaries"; "citations"]
  /\ Js.prop "graph" (json_of_bundle b) = Ok Js.Undefined
  /\ exists g, buildFlowElements (json_of_bundle b) = Ok g.
Proof.
  intros H. apply search_returned in H as (ps & ds & cs & -> & _).
  split; [reflexivity|]. split; [reflexivity|].
  eexists. apply buildFlowElements_bundle.
Qed.

Lemma search_bundle_fields_witness :
  exists b,
    search Sample.client_get (Sample.parsed [Sample.entry_without_link; Sample.entry])
      (Summarizer.summarize_papers Sample.title_service Sample.parse_reply) Sample.request
    = Returned b
    /\ fst <$> b = ["papers"; "summaries"; "citations"]
    /\ Js.prop "graph" (json_of_bundle b) = Ok Js.Undefined.
Proof.
  eexists. split; [reflexivity|].
  split; eapply (search_bundle_fields Sample.client_get
                   (Sample.parsed [Sample.entry_without_link; Sample.entry])
                   (Summarizer.summarize_papers Sample.title_service Sample.parse_reply)
                   Sample.request); reflexivity.
Defined.

(** C2, as the specification has it, fails on any search that returns: the
    bundle has no field [graph]. *)
Lemma bundle_without_graph :
  exists b,
    search Sample.client_get (Sample.parsed [Sample.entry_without_link; Sample.entry])
      (Summarizer.summarize_papers Sample.title_service Sample.parse_reply) Sample.request
    = Returned b
    /\ fst <$> b = ["papers"; "summaries"; "citations"]
    /\ existsb (String.eqb "graph") (fst <$> b) = false
    /\ Js.prop "graph" (json_of_bundle b) = Ok Js.Undefined.
Proof. eexists. repeat split. Qed.

(** ** Further properties of the backend *)

Lemma format_citations_with_id (p : Paper) (id : string) :
  paper_id p = Some id -> exists c, format_citations p = Ok c.
Proof.
  intros Hid. unfold format_citations. rewrite Hid. cbn [bind].
  destruct (last_segment "/" id) as [key ->]. cbn [bind]. eauto.
Qed.

(** X1: a failure of the feed request, by transport or by status, is fatal: the
    search reports the server error and returns no bundle, whatever the
    summarizer. *)
Theorem fetch_failure_is_fatal client_get BeautifulSoup summarizer (req : SearchRequest) :
  client_get ARXIV_BASE (params (query req) (max_results req)) = None
  \/ (exists resp, client_get ARXIV_BASE (params (query req) (max_results req)) = Some resp
                   /\ (status_code resp < 200 \/ 300 <= status_code resp)) ->
  search client_get BeautifulSoup summarizer req = HTTPException 500 HTTPError.
Proof.
  intros [Hget|(resp & Hget & Hstatus)]; unfold search, fetch_arxiv_papers;
    rewrite Hget; cbn [bind]; [reflexivity|].
  unfold raise_for_status.
  destruct (200 <=? status_code resp)%nat eqn:E1; cbn [andb bind]; [|reflexivity].
  destruct (status_code resp <? 300)%nat eqn:E2; cbn [bind]; [|reflexivity].
  apply Nat.leb_le in E1. apply Nat.ltb_lt in E2. lia.
Qed.

Lemma fetch_failure_is_fatal_witness :
  search Sample.unreachable (Sample.parsed [Sample.entry])
    (Summarizer.summarize_papers Sample.title_service Sample.parse_reply) Sample.request
  = HTTPException 500 HTTPError.
Proof.
  apply (fetch_failure_is_fatal Sample.unreachable (Sample.parsed [Sample.entry])).
  left. reflexivity.
Defined.

(** X2: formatting never fails inside a search: every fetched paper has an
    identifier, so once the feed has been fetched and the summarizer has
    answered, the search returns. *)
Theorem search_returns_after_fetch client_get BeautifulSoup summarizer (req : SearchRequest)
    (ps : list Paper) (ds : list Digest) :
  fetch_arxiv_papers client_get BeautifulSoup (query req) (max_results req) = Ok ps ->
  summarizer ps = Ok ds ->
  exists cs, search client_get BeautifulSoup summarizer req = Returned (bundle_of ps ds cs)
             /\ length cs = length ps.
Proof.
  intros Hps Hds.
  destruct (fetch_parsed _ _ _ _ _ Hps) as [entries HF].
  assert (exists cs, Forall2 (fun p c => format_citations p = Ok c) ps cs) as [cs Hcs].
  { clear -HF. induction HF as [|e p es ps Hp _ [cs IH]]; [exists []; constructor|].
    destruct (parse_entry_link e p Hp) as (id & Hid & _).
    destruct (format_citations_with_id p id Hid) as [c Hc].
    exists (c :: cs). constructor; assumption. }
  exists cs. split.
  - apply search_returns; [exact Hps|exact Hds|]. apply comprehension_Ok, Hcs.
  - symmetry. apply (Forall2_length _ _ _ Hcs).
Qed.

Lemma search_returns_after_fetch_witness :
  exists cs,
    search Sample.client_get (Sample.parsed [Sample.entry_without_link; Sample.entry])
      (Summarizer.summarize_papers Sample.title_service Sample.parse_reply) Sample.request
    = Returned (bundle_of [Sample.paper2; Sample.paper]
                  [ {| bullets := ["Message Passing"]; narrative := "" |};
                    {| bullets := ["Graph Neural Networks"]; narrative := "" |} ] cs)
    /\ length cs = 2.
Proof.
  exact (search_returns_after_fetch Sample.client_get
           (Sample.parsed [Sample.entry_without_link; Sample.entry])
           (Summarizer.summarize_papers Sample.title_service Sample.parse_reply)
           Sample.request _ _ eq_refl eq_refl).
Defined.

Lemma join_split (sep : ascii) (s : string) :
  Py.join (String sep "") (Py.split sep s) = s.
Proof.
  unfold Py.join. induction s as [|c s IH]; [reflexivity|].
  cbn [Py.split]. pose proof (split_not_nil sep s) as Hne.
  destruct (Ascii.eqb_spec c sep) as [->|_]; destruct (Py.split sep s) as [|w ws];
    try (destruct (Hne eq_refl)).
  - cbn [String.concat]. cbn [String.concat] in IH. rewrite IH. reflexivity.
  - cbn [String.concat]. cbn [String.concat] in IH. destruct ws as [|w' ws].
    + rewrite IH. reflexivity.
    + rewrite <- IH. reflexivity.
Qed.

Lemma split_lacks (sep : ascii) (s : string) :
  Forall (fun w => lacks sep w = true) (Py.split sep s).
Proof.
  induction s as [|c s IH]; [repeat constructor|].
  cbn [Py.split]. destruct (Ascii.eqb c sep) eqn:E.
  - constructor; [reflexivity|exact IH].
  - destruct (Py.split sep s) as [|w ws]; [repeat constructor; cbn; rewrite E; reflexivity|].
    inversion IH; subst. constructor; [|assumption]. cbn. rewrite E. assumption.
Qed.

(** X3: the key of the BibTeX entry is the last segment of the identifier: the
    identifier is its segments joined by [/], the key is the last of them
    and has no [/] in it; the entry is laid out on seven lines around the
    key, the title, the authors, the year and the link. *)
Theorem bibtex_key (p : Paper) (c : Citation) :
  format_citations p = Ok c ->
  exists id segments key,
    paper_id p = Some id
    /\ Py.split "/" id = segments ++ [key]
    /\ Py.join "/" (segments ++ [key]) = id
    /\ lacks "/" key = true
    /\ bibtex c =
       "@article{" +:+ key +:+ "," +:+ Py.newline
       +:+ "  title = {" +:+ Py.fstr (paper_title p) +:+ "}," +:+ Py.newline
       +:+ "  author = {" +:+ author_str p +:+ "}," +:+ Py.newline
       +:+ "  year = {" +:+ year p +:+ "}," +:+ Py.newline
       +:+ "  howpublished = {arXiv:" +:+ key +:+ "}," +:+ Py.newline
       +:+ "  url = {" +:+ Py.fstr (paper_link p) +:+ "}" +:+ Py.newline
       +:+ "}".
Proof.
  unfold format_citations. destruct (paper_id p) as [id|]; cbn [bind]; [|discriminate].
  unfold Py.index_last. destruct (last (Py.split "/" id)) as [key|] eqn:Hlast;
    cbn [bind]; [|discriminate].
  intros [= <-]. apply last_Some in Hlast as [segments Hsplit].
  exists id, segments, key. split; [reflexivity|]. split; [exact Hsplit|].
  split; [rewrite <- Hsplit; apply join_split|].
  split; [|reflexivity].
  pose proof (split_lacks "/" id) as H. rewrite Hsplit in H.
  apply Forall_app in H as [_ H]. inversion H; assumption.
Qed.

Lemma bibtex_key_witness :
  exists id segments key,
    paper_id Sample.paper = Some id
    /\ Py.split "/" id = segments ++ [key]
    /\ key = "2401.00001v1".
Proof.
  destruct (bibtex_key Sample.paper _ eq_refl) as (id & segments & key & Hid & Hsplit & _).
  exists id, segments, key. split; [exact Hid|]. split; [exact Hsplit|].
  injection Hid as <-.
  apply (f_equal last) in Hsplit. rewrite last_snoc in Hsplit.
  injection Hsplit as <-. reflexivity.
Defined.

(** ** Further properties of the mind map *)

Lemma lacks_uint (c : ascii) (d : Decimal.uint) :
  is_digit c = false -> lacks c (NilEmpty.string_of_uint d) = true.
Proof.
  intros Hc. induction d; cbn [NilEmpty.string_of_uint lacks]; [reflexivity|..];
    rewrite IHd, andb_true_r;
    match goal with
    | |- negb (Ascii.eqb ?a c) = true =>
        destruct (Ascii.eqb_spec a c) as [<-|_]; [discriminate Hc|reflexivity]
    end.
Qed.

Lemma append_inv_head (u r r' : string) : u +:+ r = u +:+ r' -> r = r'.
Proof.
  induction u as [|a u IH]; [rewrite !append_nil_l; auto|].
  rewrite !append_cons. intros [= E]. auto.
Qed.

(** Two indices around a separator that is no digit make a key. *)
Lemma key_inj (c : ascii) (i j k l : nat) :
  is_digit c = false ->
  Js.to_string i +:+ String c (Js.to_string j) = Js.to_string k +:+ String c (Js.to_string l) ->
  i = k /\ j = l.
Proof.
  intros Hc E.
  assert (Js.to_string i = Js.to_string k) as Hik
    by (eapply lacks_app_inj; [apply lacks_uint, Hc|apply lacks_uint, Hc|exact E]).
  rewrite Hik in E. apply append_inv_head in E. injection E as E.
  split; apply to_string_inj; assumption.
Qed.

Lemma bullet_node_id_inj (i j k l : nat) (b b' : Js.value) :
  node_id (bullet_node i j b) = node_id (bullet_node k l b') -> i = k /\ j = l.
Proof.
  cbn [node_id bullet_node]. rewrite !append_cons, !append_nil_l. intros [= E].
  apply (key_inj "b"); [reflexivity|exact E].
Qed.

Lemma paper_node_id_inj (i k : nat) (t t' : Js.value) :
  node_id (paper_node i t) = node_id (paper_node k t') -> i = k.
Proof.
  cbn [node_id paper_node]. rewrite !append_cons, !append_nil_l. intros [= E].
  apply to_string_inj, E.
Qed.

Lemma paper_node_id_not_bullet (i k l : nat) (t b : Js.value) :
  node_id (paper_node i t) <> node_id (bullet_node k l b).
Proof.
  intros E. pose proof (is_paper_node_bullet i k l b) as H.
  unfold is_paper_node in H. rewrite <- E in H.
  rewrite String.eqb_refl in H. discriminate.
Qed.

Lemma bullet_edge_id_inj (i j k l : nat) :
  edge_id (bullet_edge i j) = edge_id (bullet_edge k l) -> i = k /\ j = l.
Proof.
  cbn [edge_id bullet_edge]. rewrite !append_cons, !append_nil_l. intros [= E].
  apply (key_inj "-"); [reflexivity|exact E].
Qed.

Lemma NoDup_imap_inj {A B : Type} (f : nat -> A -> B) (l : list A) :
  (forall j x j' x', f j x = f j' x' -> j = j') -> NoDup (imap f l).
Proof.
  intros Hf. apply NoDup_alt. intros j j' y Hj Hj'.
  apply list_lookup_imap_Some in Hj as (x & _ & ->).
  apply list_lookup_imap_Some in Hj' as (x' & _ & E).
  eapply Hf, E.
Qed.

Lemma edges_from_indices (ps : list Paper) (ds : list Digest) (i0 : nat) :
  Forall (fun e => exists i j, i0 <= i /\ e = bullet_edge i j) (edges_from i0 ps ds).
Proof.
  revert i0. induction ps as [|p ps IH]; intros i0; [constructor|].
  cbn [edges_from]. apply Forall_app. split.
  - apply Forall_forall. intros e He. unfold bullet_edges in He.
    apply elem_of_lookup_imap_1 in He as (j & b & -> & _). exists i0, j. split; [lia|reflexivity].
  - eapply Forall_impl; [apply IH|]. intros e (i & j & Hi & ->). exists i, j.
    split; [lia|reflexivity].
Qed.

Lemma nodes_from_NoDup (ps : list Paper) (ds : list Digest) (i0 : nat) :
  NoDup (node_id <$> nodes_from i0 ps ds).
Proof.
  revert i0. induction ps as [|p ps IH]; intros i0; [constructor|].
  cbn [nodes_from app]. rewrite fmap_cons, fmap_app.
  pose proof (nodes_from_keys ps ds (S i0)) as Hrest.
  rewrite Forall_forall in Hrest.
  apply NoDup_cons. split; [|apply NoDup_app; split; [|split; [|apply IH]]].
  - rewrite elem_of_app, !list_elem_of_fmap.
    intros [(n & E & Hn)|(n & E & Hn)].
    + unfold bullet_nodes in Hn. apply elem_of_lookup_imap_1 in Hn as (j & b & -> & _).
      exact (paper_node_id_not_bullet _ _ _ _ _ E).
    + destruct (Hrest n Hn) as (i & Hi & [Hk|[j Hk]]); rewrite Hk in E.
      * apply paper_node_id_inj in E. lia.
      * exact (paper_node_id_not_bullet _ _ _ _ _ E).
  - unfold bullet_nodes. rewrite fmap_imap. apply NoDup_imap_inj.
    intros j x j' x' E.
    exact (proj2 (bullet_node_id_inj i0 j i0 j' (Js.Str x) (Js.Str x') E)).
  - intros id. rewrite !list_elem_of_fmap.
    intros (n & -> & Hn) (n' & E & Hn').
    unfold bullet_nodes in Hn. apply elem_of_lookup_imap_1 in Hn as (j & b & -> & _).
    destruct (Hrest n' Hn') as (i & Hi & [Hk|[j' Hk]]); rewrite Hk in E.
    + symmetry in E. exact (paper_node_id_not_bullet _ _ _ _ _ E).
    + apply bullet_node_id_inj in E. lia.
Qed.

Lemma edges_from_NoDup (ps : list Paper) (ds : list Digest) (i0 : nat) :
  NoDup (edge_id <$> edges_from i0 ps ds).
Proof.
  revert i0. induction ps as [|p ps IH]; intros i0; [constructor|].
  cbn [edges_from]. rewrite fmap_app.
  pose proof (edges_from_indices ps ds (S i0)) as Hrest.
  rewrite Forall_forall in Hrest.
  apply NoDup_app. split; [|split; [|apply IH]].
  - unfold bullet_edges. rewrite fmap_imap. apply NoDup_imap_inj.
    intros j x j' x' E. exact (proj2 (bullet_edge_id_inj i0 j i0 j' E)).
  - intros id. rewrite !list_elem_of_fmap.
    intros (e & -> & He) (e' & E & He').
    unfold bullet_edges in He. apply elem_of_lookup_imap_1 in He as (j & b & -> & _).
    destruct (Hrest e' He') as (i & j' & Hi & ->).
    apply bullet_edge_id_inj in E. lia.
Qed.

(** X4: the identifiers are keys: no two nodes of the graph have the same
    identifier, and no two edges. *)
Theorem identifiers_unique (ps : list Paper) (ds : list Digest) (cs : list Citation) :
  exists g,
    buildFlowElements (json_of_bundle (bundle_of ps ds cs)) = Ok g
    /\ NoDup (node_id <$> nodes_of g)
    /\ NoDup (edge_id <$> edges_of g).
Proof.
  eexists. split; [apply buildFlowElements_bundle|].
  rewrite nodes_of_elements, edges_of_elements.
  split; [apply nodes_from_NoDup|apply edges_from_NoDup].
Qed.

(** X6: the elements of a graph are its nodes followed by its edges. *)
Theorem graph_nodes_then_edges (results : Js.value) (g : list Element) :
  buildFlowElements results = Ok g ->
  g = (NodeElement <$> nodes_of g) ++ (EdgeElement <$> edges_of g).
Proof.
  intros H. unfold buildFlowElements in H.
  destruct (negb (Js.truthy results)); [injection H as <-; reflexivity|].
  destruct (flow_arrays results) as [[ns es]|]; cbn [bind] in H; [|discriminate].
  injection H as <-. rewrite nodes_of_elements, edges_of_elements. reflexivity.
Qed.

Lemma graph_nodes_then_edges_witness :
  exists g,
    buildFlowElements (json_of_bundle (bundle_of [Sample.paper] [Sample.digest] [])) = Ok g
    /\ g = (NodeElement <$> nodes_of g) ++ (EdgeElement <$> edges_of g).
Proof.
  eexists. split; [reflexivity|].
  exact (graph_nodes_then_edges
           (json_of_bundle (bundle_of [Sample.paper] [Sample.digest] [])) _ eq_refl).
Defined.

(** ** The fetched text *)

Lemma lstrip_starts (s : string) : starts_with_space (Py.lstrip s) = false.
Proof.
  induction s as [|c s IH]; [reflexivity|].
  cbn [Py.lstrip]. destruct (Py.isspace c) eqn:E; [exact IH|].
  cbn [starts_with_space]. exact E.
Qed.

Lemma rstrip_cases (c : ascii) (s : string) :
  Py.rstrip (String c s) = "" \/ exists r, Py.rstrip (String c s) = String c r.
Proof.
  cbn [Py.rstrip]. destruct (Py.rstrip s) as [|a r]; [|eauto].
  destruct (Py.isspace c); eauto.
Qed.

Lemma rstrip_starts (s : string) :
  starts_with_space s = false -> starts_with_space (Py.rstrip s) = false.
Proof.
  destruct s as [|c s]; [reflexivity|]. cbn [starts_with_space]. intros Hc.
  destruct (rstrip_cases c s) as [->|[r ->]]; [reflexivity|exact Hc].
Qed.

Lemma rstrip_ends (s : string) : ends_with_space (Py.rstrip s) = false.
Proof.
  induction s as [|c s IH]; [reflexivity|].
  cbn [Py.rstrip]. destruct (Py.rstrip s) as [|a r].
  - destruct (Py.isspace c) eqn:E; [reflexivity|]. cbn. exact E.
  - exact IH.
Qed.

Lemma strip_trimmed (s : string) : trimmed (Py.strip s) = true.
Proof.
  unfold trimmed, Py.strip.
  rewrite rstrip_starts by apply lstrip_starts. rewrite rstrip_ends. reflexivity.
Qed.

Lemma parse_entry_trimmed (entry : Soup.element) (p : Paper) :
  parse_entry entry = Ok p ->
  exists title summary,
    paper_title p = Some title /\ paper_summary p = Some summary
    /\ trimmed title = true /\ trimmed summary = true.
Proof.
  unfold parse_entry.
  destruct (Soup.child_text "id" entry) as [i|]; cbn [bind]; [|discriminate].
  destruct (Soup.child_text "title" entry) as [t|]; cbn [bind]; [|discriminate].
  destruct (Soup.child_text "summary" entry) as [a|]; cbn [bind]; [|discriminate].
  destruct (Soup.child_text "published" entry) as [d|]; cbn [bind]; [|discriminate].
  intros [= <-]. exists (Py.strip t), (Py.strip a).
  repeat split; apply strip_trimmed.
Qed.

(** X7: the title and the abstract of every fetched paper are trimmed: neither
    starts nor ends with a whitespace character, however the feed lays its
    text out. *)
Theorem fetched_text_trimmed client_get BeautifulSoup (q : string) (n : Z)
    (papers : list Paper) :
  fetch_arxiv_papers client_get BeautifulSoup q n = Ok papers ->
  Forall (fun p => exists title summary,
                     paper_title p = Some title /\ paper_summary p = Some summary
                     /\ trimmed title = true /\ trimmed summary = true) papers.
Proof.
  intros H. destruct (fetch_parsed _ _ _ _ _ H) as [entries HF].
  clear H. induction HF as [|e p es ps Hp _ IH]; [constructor|].
  constructor; [exact (parse_entry_trimmed e p Hp)|exact IH].
Qed.

Lemma fetched_text_trimmed_witness :
  Soup.child_text "title" Sample.entry = Ok " Graph Neural Networks "
  /\ Forall (fun p => exists title summary,
                        paper_title p = Some title /\ paper_summary p = Some summary
                        /\ trimmed title = true /\ trimmed summary = true)
       [Sample.paper].
Proof.
  split; [reflexivity|].
  apply (fetched_text_trimmed Sample.client_get (Sample.parsed [Sample.entry]) "graphs" 2).
  reflexivity.
Defined.

(** ** The year and the braces of a citation *)

Lemma slice_to_length (n : nat) (s : string) : String.length (Py.slice_to n s) <= n.
Proof.
  revert s. induction n as [|n IH]; intros [|c s]; cbn; try lia.
  specialize (IH s). lia.
Qed.

(** X8: the year of a citation is never empty and never longer than four
    characters, whatever the publication date is, present or not. *)
Theorem year_length (p : Paper) :
  1 <= String.length (year p) <= 4.
Proof.
  unfold year.
  pose proof (slice_to_length 4 (default "" (paper_published p))) as H.
  destruct (Py.slice_to 4 (default "" (paper_published p))) as [|c s]; cbn in *; lia.
Qed.

Lemma count_char_app (c : ascii) (u v : string) :
  count_char c (u +:+ v) = count_char c u + count_char c v.
Proof.
  induction u as [|a u IH]; [reflexivity|].
  rewrite append_cons. cbn [count_char]. rewrite IH. lia.
Qed.

(** X9: the braces of the BibTeX entry are the twelve of its layout and those of
    its fields, which are copied unescaped, the key twice: the entry is
    balanced exactly when the braces of its fields are. *)
Theorem bibtex_braces (p : Paper) (c : Citation) :
  format_citations p = Ok c ->
  exists id key,
    paper_id p = Some id
    /\ Py.index_last (Py.split "/" id) = Ok key
    /\ forall brace, brace = "{"%char \/ brace = "}"%char ->
         count_char brace (bibtex c)
         = 6 + 2 * count_char brace key
           + count_char brace (Py.fstr (paper_title p))
           + count_char brace (author_str p)
           + count_char brace (year p)
           + count_char brace (Py.fstr (paper_link p)).
Proof.
  unfold format_citations. destruct (paper_id p) as [id|]; cbn [bind]; [|discriminate].
  destruct (Py.index_last (Py.split "/" id)) as [key|] eqn:Hkey; cbn [bind];
    [|discriminate].
  intros [= <-]. exists id, key. split; [reflexivity|]. split; [exact Hkey|].
  intros brace Hbrace.
  assert (count_char brace Py.newline = 0) as Hn by (destruct Hbrace as [-> | ->]; reflexivity).
  cbn [bibtex]. rewrite !count_char_app, !Hn.
  destruct Hbrace as [-> | ->]; cbn; lia.
Qed.

Lemma bibtex_braces_witness :
  exists c,
    format_citations Sample.braced_paper = Ok c
    /\ count_char "{" (bibtex c) = 7 /\ count_char "}" (bibtex c) = 6.
Proof.
  destruct (bibtex_braces Sample.braced_paper _ eq_refl) as (id & key & _ & _ & _).
  eexists. split; [reflexivity|]. split; reflexivity.
Defined.

(** ** The errors of a search *)

Lemma comprehension_error {A B : Type} (f : A -> result B) (l : list A) (e : exn) :
  comprehension f l = Err e -> exists x, f x = Err e.
Proof.
  induction l as [|x l IH]; cbn [comprehension]; [discriminate|].
  destruct (f x) as [y|e'] eqn:Hx; cbn [bind]; [|intros [= <-]; eauto].
  destruct (comprehension f l) as [ys|e'']; cbn [bind]; [discriminate|].
  intros [= <-]. apply IH. reflexivity.
Qed.

Lemma fetch_error_kinds client_get BeautifulSoup (q : string) (n : Z) (e : exn) :
  fetch_arxiv_papers client_get BeautifulSoup q n = Err e ->
  e = HTTPError \/ e = AttributeError "text".
Proof.
  unfold fetch_arxiv_papers.
  destruct (client_get _ _) as [resp|]; cbn [bind]; [|intros [= <-]; left; reflexivity].
  unfold raise_for_status. destruct (_ && _)%bool; cbn [bind];
    [|intros [= <-]; left; reflexivity].
  intros H. right. apply comprehension_error in H as [entry H].
  apply parse_entry_error in H. exact H.
Qed.

Lemma fetched_citations client_get BeautifulSoup (q : string) (n : Z) (ps : list Paper) :
  fetch_arxiv_papers client_get BeautifulSoup q n = Ok ps ->
  exists cs, comprehension format_citations ps = Ok cs.
Proof.
  intros Hps. destruct (fetch_parsed _ _ _ _ _ Hps) as [entries HF].
  assert (exists cs, Forall2 (fun p c => format_citations p = Ok c) ps cs) as [cs Hcs].
  { clear -HF. induction HF as [|e p es ps Hp _ [cs IH]]; [exists []; constructor|].
    destruct (parse_entry_link e p Hp) as (id & Hid & _).
    destruct (format_citations_with_id p id Hid) as [c Hc].
    exists (c :: cs). constructor; assumption. }
  exists cs. apply comprehension_Ok, Hcs.
Qed.

(** X10: a search that fails reports status 500, and its detail is the failure of
    the HTTP layer, the attribute error of an entry without one of its
    elements, or the failure of the summarizer: formatting the citations
    contributes no failure. *)
Theorem search_error_kinds client_get BeautifulSoup summarizer (req : SearchRequest)
    (status : nat) (e : exn) :
  search client_get BeautifulSoup summarizer req = HTTPException status e ->
  status = 500
  /\ (e = HTTPError \/ e = AttributeError "text" \/ exists ps, summarizer ps = Err e).
Proof.
  unfold search.
  destruct (fetch_arxiv_papers _ _ _ _) as [ps|e'] eqn:Hps; cbn [bind].
  - destruct (fetched_citations _ _ _ _ _ Hps) as [cs Hcs].
    destruct (summarizer ps) as [ds|e'] eqn:Hds; cbn [bind].
    + rewrite Hcs. cbn [bind]. discriminate.
    + intros [= <- <-]. split; [reflexivity|]. right. right. eauto.
  - intros [= <- <-]. split; [reflexivity|].
    destruct (fetch_error_kinds _ _ _ _ _ Hps) as [->| ->]; auto.
Qed.

Lemma search_error_kinds_witness :
  search Sample.client_get (Sample.parsed [Sample.entry_without_id; Sample.entry])
    (Summarizer.summarize_papers Sample.title_service Sample.parse_reply) Sample.request
  = HTTPException 500 (AttributeError "text")
  /\ 500 = 500.
Proof.
  split; [reflexivity|].
  exact (proj1 (search_error_kinds Sample.client_get
                  (Sample.parsed [Sample.entry_without_id; Sample.entry])
                  (Summarizer.summarize_papers Sample.title_service Sample.parse_reply)
                  Sample.request 500 (AttributeError "text") eq_refl)).
Defined.

(** ** The mind map of malformed results *)

(** X11: a truthy [results] must have an array of papers: without one, building
    the graph throws. *)
Theorem papers_required (results : Js.value) :
  Js.truthy results = true ->
  (forall items, Js.prop "papers" results <> Ok (Js.Array items)) ->
  buildFlowElements results = Err TypeError.
Proof.
  intros Htruthy Hpapers. unfold buildFlowElements, flow_arrays. rewrite Htruthy.
  cbn [negb]. destruct (Js.prop "papers" results) as [papers|e] eqn:Hp.
  - cbn [bind]. destruct papers; try reflexivity. destruct (Hpapers items eq_refl).
  - destruct results; try discriminate.
Qed.

Lemma papers_required_witness :
  buildFlowElements (Js.Object [("summaries", Js.Array [])]) = Err TypeError.
Proof.
  apply papers_required; [reflexivity|]. intros items. discriminate.
Defined.

(** X12: with at least one paper, [results] must have its [summaries] too: when
    the field is missing or [null], building the graph throws, although a
    missing digest inside the array is tolerated; with no paper the field is
    not read and the graph is empty. *)
Theorem summaries_required (results first : Js.value) (others : list Js.value) :
  Js.truthy results = true ->
  Js.prop "summaries" results = Ok Js.Undefined
  \/ Js.prop "summaries" results = Ok Js.Null ->
  (Js.prop "papers" results = Ok (Js.Array (first :: others)) ->
   buildFlowElements results = Err TypeError)
  /\ (Js.prop "papers" results = Ok (Js.Array []) -> buildFlowElements results = Ok []).
Proof.
  intros Htruthy Hsummaries.
  unfold buildFlowElements, flow_arrays. rewrite Htruthy. cbn [negb].
  split; intros ->; cbn [bind Js.forEach Js.forEach_from]; [|reflexivity].
  unfold each_paper. destruct (Js.prop "title" first) as [t|e] eqn:Ht; cbn [bind].
  - unfold bullets_of. destruct Hsummaries as [-> | ->]; reflexivity.
  - destruct first; cbn in Ht; try discriminate; injection Ht as <-; reflexivity.
Qed.

Lemma summaries_required_witness :
  buildFlowElements (Js.Object [("papers", Js.Array [json_of_paper Sample.paper])])
  = Err TypeError
  /\ buildFlowElements (Js.Object [("papers", Js.Array [])]) = Ok [].
Proof.
  split.
  - exact (proj1 (summaries_required
                    (Js.Object [("papers", Js.Array [json_of_paper Sample.paper])])
                    (json_of_paper Sample.paper) [] eq_refl (or_introl eq_refl)) eq_refl).
  - exact (proj2 (summaries_required (Js.Object [("papers", Js.Array [])])
                    Js.Null [] eq_refl (or_introl eq_refl)) eq_refl).
Defined.

Lemma bullets_at_take (ds : list Digest) (n i : nat) :
  i < n -> bullets_at (take n ds) i = bullets_at ds i.
Proof. intros Hi. unfold bullets_at. rewrite lookup_take_lt by exact Hi. reflexivity. Qed.

Lemma nodes_from_take (ps : list Paper) (ds : list Digest) (i n : nat) :
  i + length ps <= n -> nodes_from i ps (take n ds) = nodes_from i ps ds.
Proof.
  revert i. induction ps as [|p ps IH]; intros i Hn; [reflexivity|].
  cbn [length] in Hn. cbn [nodes_from].
  rewrite bullets_at_take by lia. rewrite IH by lia. reflexivity.
Qed.

Lemma edges_from_take (ps : list Paper) (ds : list Digest) (i n : nat) :
  i + length ps <= n -> edges_from i ps (take n ds) = edges_from i ps ds.
Proof.
  revert i. induction ps as [|p ps IH]; intros i Hn; [reflexivity|].
  cbn [length] in Hn. cbn [edges_from].
  rewrite bullets_at_take by lia. rewrite IH by lia. reflexivity.
Qed.

(** X13: papers and digests need not be aligned for the graph to be built: a
    paper beyond the last digest gets its node, no bullet node and no edge,
    and the digests beyond the last paper are not read. *)
Theorem graph_of_ragged_bundle (ps : list Paper) (ds : list Digest) (cs : list Citation) :
  exists g,
    buildFlowElements (json_of_bundle (bundle_of ps ds cs)) = Ok g
    /\ buildFlowElements (json_of_bundle (bundle_of ps (take (length ps) ds) cs)) = Ok g
    /\ forall i p, ps !! i = Some p -> ds !! i = None ->
         List.filter (is_paper_node i) (nodes_of g) = [paper_node i (title_of p)]
         /\ List.filter (is_bullet_node i) (nodes_of g) = []
         /\ List.filter (leaves i) (edges_of g) = [].
Proof.
  eexists. split; [apply buildFlowElements_bundle|].
  split.
  { rewrite buildFlowElements_bundle, nodes_from_take, edges_from_take by (cbn; lia).
    reflexivity. }
  rewrite nodes_of_elements, edges_of_elements.
  intros i p Hp Hd.
  rewrite filter_paper_node, filter_bullet_node, filter_leaves.
  destruct (decide (0 <= i)); [|lia]. rewrite Nat.sub_0_r, Hp. cbn [from_option].
  unfold bullets_at. rewrite Hd. repeat split.
Qed.

(** ** Digests without bullets *)





(** ** The cards of the papers *)

Lemma prop_paper_fields (p : Paper) :
  Js.prop "link" (json_of_paper p) = Ok (optional (paper_link p))
  /\ Js.prop "published" (json_of_paper p) = Ok (optional (paper_published p))
  /\ Js.prop "authors" (json_of_paper p)
     = Ok (from_option json_strings Js.Undefined (paper_authors p)).
Proof. destruct p as [[?|] [?|] [?|] [?|] [?|] [?|]]; repeat split. Qed.

Lemma join_strings (ToString : Js.value -> string) (l : list string) (sep : string) :
  App.join ToString (json_strings l) sep = Ok (String.concat sep l).
Proof.
  unfold App.join, json_strings. do 2 f_equal.
  induction l as [|x l IH]; [reflexivity|]. cbn [List.map]. f_equal. exact IH.
Qed.

Lemma prop_error (k : string) (v : Js.value) (e : exn) :
  Js.prop k v = Err e -> e = TypeError.
Proof. destruct v; cbn; congruence. Qed.

Lemma index_error (v : Js.value) (i : nat) (e : exn) :
  Js.index v i = Err e -> e = TypeError.
Proof. destruct v; cbn; congruence. Qed.

Lemma join_error (ToString : Js.value -> string) (v : Js.value) (sep : string) (e : exn) :
  App.join ToString v sep = Err e -> e = TypeError.
Proof. destruct v; cbn; congruence. Qed.

Lemma card_error (ToString : Js.value -> string) (stringify : Js.value -> Js.value)
    (results p : Js.value) (idx : nat) (e : exn) :
  App.card ToString stringify results p idx = Err e -> e = TypeError.
Proof.
  unfold App.card.
  repeat match goal with
         | |- bind ?m _ = Err _ -> _ =>
             let H := fresh "H" in
             destruct m eqn:H; cbn [bind];
             [|intros [= <-];
               first [eapply prop_error; eassumption
                     |eapply index_error; eassumption
                     |eapply join_error; eassumption]]
         end.
  discriminate.
Qed.

Lemma Array_map_from_error {B : Type} (f : Js.value -> nat -> result B)
    (items : list Js.value) (i : nat) :
  (forall x k e, f x k = Err e -> e = TypeError) ->
  (exists k x, items !! k = Some x /\ is_ok (f x (i + k)) = false) ->
  Array_map_from f items i = Err TypeError.
Proof.
  intros Hf. revert i. induction items as [|y items IH]; intros i (k & x & Hk & Hx);
    [discriminate|].
  cbn [Array_map_from]. destruct (f y i) as [c|e] eqn:Hy; cbn [bind].
  - destruct k as [|k].
    + injection Hk as ->. rewrite Nat.add_0_r, Hy in Hx. discriminate.
    + rewrite (IH (S i)); [reflexivity|]. exists k, x. split; [exact Hk|].
      replace (S i + k) with (i + S k) by lia. exact Hx.
  - rewrite (Hf _ _ _ Hy). reflexivity.
Qed.

Section Cards.

Variable ToString : Js.value -> string.
Variable stringify : Js.value -> Js.value.
Variables (ps : list Paper) (ds : list Digest) (cs : list Citation).

Lemma card_bundle (p : Paper) (i : nat) (names : list string) (c : Citation) :
  paper_authors p = Some names ->
  cs !! i = Some c ->
  App.card ToString stringify (json_of_bundle (bundle_of ps ds cs)) (json_of_paper p) i
  = Ok {| App.href := optional (paper_link p);
          App.title := title_of p;
          App.published := optional (paper_published p);
          App.authors := author_str p;
          App.summary := stringify (from_option json_of_digest Js.Undefined (ds !! i));
          App.citation := Js.Str (apa c) |}.
Proof.
  intros Hnames Hc. unfold App.card.
  destruct (prop_paper_fields p) as (-> & -> & ->). rewrite prop_title. cbn [bind].
  rewrite Hnames. cbn [from_option]. rewrite join_strings. cbn [bind].
  change (Js.prop "summaries" (json_of_bundle (bundle_of ps ds cs)))
    with (Ok (Js.Array (json_of_digest <$> ds))).
  change (Js.prop "citations" (json_of_bundle (bundle_of ps ds cs)))
    with (Ok (Js.Array (json_of_citation <$> cs))).
  cbn [bind Js.index]. rewrite !list_lookup_fmap, Hc. cbn [fmap option_fmap option_map default].
  cbn [bind]. unfold author_str, Py.join. rewrite Hnames.
  destruct (ds !! i); reflexivity.
Qed.

Lemma card_without_citation (p : Js.value) (i : nat) :
  cs !! i = None ->
  is_ok (App.card ToString stringify (json_of_bundle (bundle_of ps ds cs)) p i) = false.
Proof.
  intros Hc. unfold App.card.
  destruct (Js.prop "link" p); cbn [bind]; [|reflexivity].
  destruct (Js.prop "title" p); cbn [bind]; [|reflexivity].
  destruct (Js.prop "published" p); cbn [bind]; [|reflexivity].
  destruct (Js.prop "authors" p) as [names|]; cbn [bind]; [|reflexivity].
  destruct (App.join ToString names ", "); cbn [bind]; [|reflexivity].
  change (Js.prop "summaries" (json_of_bundle (bundle_of ps ds cs)))
    with (Ok (Js.Array (json_of_digest <$> ds))).
  change (Js.prop "citations" (json_of_bundle (bundle_of ps ds cs)))
    with (Ok (Js.Array (json_of_citation <$> cs))).
  cbn [bind Js.index]. rewrite list_lookup_fmap, Hc. reflexivity.
Qed.

Lemma card_without_authors (p : Paper) (i : nat) :
  paper_authors p = None ->
  is_ok (App.card ToString stringify (json_of_bundle (bundle_of ps ds cs))
           (json_of_paper p) i) = false.
Proof.
  intros Hnames. unfold App.card.
  destruct (prop_paper_fields p) as (-> & -> & ->). rewrite prop_title. cbn [bind].
  rewrite Hnames. reflexivity.
Qed.

Lemma cards_from (qs : list Paper) (i : nat) :
  Forall (fun p => is_Some (paper_authors p)) qs ->
  (forall k, k < length qs -> is_Some (cs !! (i + k))) ->
  exists cards,
    Array_map_from (App.card ToString stringify (json_of_bundle (bundle_of ps ds cs)))
      (List.map json_of_paper qs) i = Ok cards
    /\ length cards = length qs
    /\ forall k p, qs !! k = Some p ->
         exists card c,
           cards !! k = Some card /\ cs !! (i + k) = Some c
           /\ App.href card = optional (paper_link p)
           /\ App.title card = title_of p
           /\ App.published card = optional (paper_published p)
           /\ App.authors card = author_str p
           /\ App.summary card
              = stringify (from_option json_of_digest Js.Undefined (ds !! (i + k)))
           /\ App.citation card = Js.Str (apa c).
Proof.
  intros Hqs. revert i. induction Hqs as [|p qs [names Hnames] _ IH]; intros i Hcs.
  - exists []. repeat split. intros k p Hk. discriminate.
  - destruct (Hcs 0) as [c Hc]; [cbn; lia|]. rewrite Nat.add_0_r in Hc.
    destruct (IH (S i)) as (cards & Hcards & Hlen & Hall).
    { intros k Hk. replace (S i + k) with (i + S k) by lia. apply Hcs. cbn. lia. }
    cbn [List.map Array_map_from]. rewrite (card_bundle p i names c Hnames Hc). cbn [bind].
    rewrite Hcards. cbn [bind]. eexists. split; [reflexivity|].
    split; [cbn; rewrite Hlen; reflexivity|].
    intros [|k] q Hk.
    + injection Hk as <-. rewrite Nat.add_0_r. do 2 eexists.
      split; [reflexivity|]. split; [exact Hc|]. repeat split.
    + cbn in Hk. destruct (Hall k q Hk) as (card & c' & H1 & H2 & H).
      replace (S i + k) with (i + S k) in H2, H by lia.
      exists card, c'. split; [exact H1|]. split; [exact H2|exact H].
Qed.

End Cards.

Lemma parse_entry_authors (entry : Soup.element) (p : Paper) :
  parse_entry entry = Ok p -> is_Some (paper_authors p).
Proof.
  unfold parse_entry.
  destruct (Soup.child_text "id" entry) as [i|]; cbn [bind]; [|discriminate].
  destruct (Soup.child_text "title" entry) as [t|]; cbn [bind]; [|discriminate].
  destruct (Soup.child_text "summary" entry) as [a|]; cbn [bind]; [|discriminate].
  destruct (Soup.child_text "published" entry) as [d|]; cbn [bind]; [|discriminate].
  intros [= <-]. eexists. reflexivity.
Qed.

Lemma fetched_authors client_get BeautifulSoup (q : string) (n : Z) (ps : list Paper) :
  fetch_arxiv_papers client_get BeautifulSoup q n = Ok ps ->
  Forall (fun p => is_Some (paper_authors p)) ps.
Proof.
  intros H. destruct (fetch_parsed _ _ _ _ _ H) as [entries HF].
  clear H. induction HF as [|e p es ps Hp _ IH]; [constructor|].
  constructor; [exact (parse_entry_authors e p Hp)|exact IH].
Qed.

(** The cards of a bundle whose papers have their authors and whose
    citations are those of the papers. *)
Lemma cards_of_bundle (ToString : Js.value -> string) (stringify : Js.value -> Js.value)
    (ps : list Paper) (ds : list Digest) (cs : list Citation) :
  Forall (fun p => is_Some (paper_authors p)) ps ->
  Forall2 (fun p c => format_citations p = Ok c) ps cs ->
  exists cards,
    App.cards ToString stringify (json_of_bundle (bundle_of ps ds cs)) = Ok cards
    /\ length cards = length ps
    /\ forall i p, ps !! i = Some p ->
         exists card c,
           cards !! i = Some card /\ format_citations p = Ok c
           /\ App.href card = optional (paper_link p)
           /\ App.title card = title_of p
           /\ App.published card = optional (paper_published p)
           /\ App.authors card = author_str p
           /\ App.summary card = stringify (from_option json_of_digest Js.Undefined (ds !! i))
           /\ App.citation card = Js.Str (apa c).
Proof.
  intros Hps Hcs.
  destruct (cards_from ToString stringify ps ds cs ps 0 Hps) as (cards & Hcards & Hlen & H).
  { intros k Hk. cbn. apply lookup_lt_is_Some. rewrite <- (Forall2_length _ _ _ Hcs).
    exact Hk. }
  exists cards. split; [|split; [exact Hlen|]].
  - unfold App.cards. rewrite prop_papers. cbn [bind Array_map]. exact Hcards.
  - intros i p Hp. destruct (H i p Hp) as (card & c & H1 & H2 & H3).
    cbn in H2, H3. exists card, c. split; [exact H1|]. split; [|exact H3].
    destruct (Forall2_lookup_l _ _ _ _ _ Hcs Hp) as (c' & Hc' & Hf). congruence.
Qed.

(** X15: every bundle that a search returns can be shown: the list has one card
    per paper, and the card at an index shows the link, title and date of
    the paper at that index, the authors as the citation joins them, the
    digest at that index if there is one, and the citation formatted from
    that very paper, whatever the summarizer has returned. *)
Theorem search_renders client_get BeautifulSoup summarizer
    (ToString : Js.value -> string) (stringify : Js.value -> Js.value)
    (req : SearchRequest) (b : Bundle) :
  search client_get BeautifulSoup summarizer req = Returned b ->
  exists ps ds cs cards,
    b = bundle_of ps ds cs
    /\ App.cards ToString stringify (json_of_bundle b) = Ok cards
    /\ length cards = length ps
    /\ forall i p, ps !! i = Some p ->
         exists card c,
           cards !! i = Some card /\ format_citations p = Ok c
           /\ App.href card = optional (paper_link p)
           /\ App.title card = title_of p
           /\ App.published card = optional (paper_published p)
           /\ App.authors card = author_str p
           /\ App.summary card = stringify (from_option json_of_digest Js.Undefined (ds !! i))
           /\ App.citation card = Js.Str (apa c).
Proof.
  intros H. apply search_returned in H as (ps & ds & cs & -> & Hps & _ & Hcs).
  apply comprehension_Forall2 in Hcs.
  destruct (cards_of_bundle ToString stringify ps ds cs (fetched_authors _ _ _ _ _ Hps) Hcs)
    as (cards & H).
  exists ps, ds, cs, cards. split; [reflexivity|exact H].
Qed.

Lemma search_renders_witness :
  exists cards,
    App.cards (fun _ => "") (fun v => v)
      (json_of_bundle
         (bundle_of [Sample.paper2; Sample.paper]
            [ {| bullets := ["Message Passing"]; narrative := "" |} ]
            [ {| apa := "A"; bibtex := "B" |}; {| apa := "C"; bibtex := "D" |} ]))
    = Ok cards
    /\ length cards = 2.
Proof.
  destruct (search_renders Sample.client_get
              (Sample.parsed [Sample.entry_without_link; Sample.entry])
              (fun ps => Ok [ {| bullets := ["Message Passing"]; narrative := "" |} ])
              (fun _ => "") (fun v => v) Sample.request _ eq_refl)
    as (ps & ds & cs & cards & Hb & _ & Hlen & _).
  injection Hb as <- <- <-. eexists. split; [reflexivity|reflexivity].
Defined.

(** X16: the list of papers cannot be shown when a citation is missing or when a
    paper has no authors field, although the backend formats such a paper
    with an empty author string: the map over the papers throws. *)
Theorem cards_fail (ToString : Js.value -> string) (stringify : Js.value -> Js.value)
    (ps : list Paper) (ds : list Digest) (cs : list Citation) :
  length cs < length ps \/ Exists (fun p => paper_authors p = None) ps ->
  App.cards ToString stringify (json_of_bundle (bundle_of ps ds cs)) = Err TypeError.
Proof.
  intros H. unfold App.cards. rewrite prop_papers. cbn [bind Array_map].
  apply Array_map_from_error; [intros x k e; apply card_error|].
  change (List.map json_of_paper ps) with (json_of_paper <$> ps).
  destruct H as [Hlen|Hex].
  - destruct (lookup_lt_is_Some_2 ps (length cs) Hlen) as [p Hp].
    exists (length cs), (json_of_paper p). rewrite list_lookup_fmap, Hp.
    split; [reflexivity|]. apply card_without_citation.
    apply lookup_ge_None. cbn. lia.
  - apply Exists_exists in Hex as (p & Hin & Hnames).
    apply list_elem_of_lookup in Hin as [k Hk].
    exists k, (json_of_paper p). rewrite list_lookup_fmap, Hk.
    split; [reflexivity|]. apply card_without_authors, Hnames.
Qed.

Lemma cards_fail_witness :
  App.cards (fun _ => "") (fun v => v)
    (json_of_bundle (bundle_of [Sample.paper; Sample.paper2] [Sample.digest]
                       [ {| apa := "A"; bibtex := "B" |} ]))
  = Err TypeError.
Proof.
  apply cards_fail. left. cbn. lia.
Defined.

(** ** The search handler *)




(** ** The page after a search *)

Lemma search_status client_get BeautifulSoup summarizer (req : SearchRequest)
    (status : nat) (e : exn) :
  search client_get BeautifulSoup summarizer req = HTTPException status e -> status = 500.
Proof.
  unfold search. destruct (bind _ _); [discriminate|]. intros [= <- _]. reflexivity.
Qed.

Lemma api_search_returned client_get BeautifulSoup summarizer (str : exn -> string)
    (q : string) (b : Bundle) :
  search client_get BeautifulSoup summarizer {| query := q; max_results := 5 |} = Returned b ->
  Api.search (serve client_get BeautifulSoup summarizer str) q (Some 5%Z)
  = Ok (json_of_bundle b).
Proof.
  intros H. unfold Api.search, serve.
  change (String.eqb "/search" "/search") with true.
  change (default 5%Z (Some 5%Z)) with 5%Z. cbv iota. rewrite H. reflexivity.
Qed.

Lemma api_search_failed client_get BeautifulSoup summarizer (str : exn -> string)
    (q : string) (status : nat) (e : exn) :
  search client_get BeautifulSoup summarizer {| query := q; max_results := 5 |}
  = HTTPException status e ->
  Api.search (serve client_get BeautifulSoup summarizer str) q (Some 5%Z) = Err HTTPError.
Proof.
  intros H. unfold Api.search, serve.
  change (String.eqb "/search" "/search") with true.
  change (default 5%Z (Some 5%Z)) with 5%Z. cbv iota. rewrite H.
  rewrite (search_status _ _ _ _ _ _ H). reflexivity.
Qed.

(** X18: the page over the backend.  The handler asks for five results for the
    query of the state.  When the search returns, the results are the
    bundle, nothing is alerted, and the page shows one card per paper and
    the mind map of the bundle; when it fails, the page alerts once and
    keeps the previous results.  No other outcome exists. *)
Theorem page_after_search client_get BeautifulSoup summarizer (str : exn -> string)
    (ToString : Js.value -> string) (stringify : Js.value -> Js.value) (st : App.State) :
  let post := serve client_get BeautifulSoup summarizer str in
  let evs := App.handleSearch post st in
  let st' := App.run st evs in
  match search client_get BeautifulSoup summarizer
          {| query := App.query st; max_results := 5 |} with
  | Returned b =>
      App.results st' = json_of_bundle b
      /\ App.alerts evs = []
      /\ exists cards elements,
           App.cards ToString stringify (json_of_bundle b) = Ok cards
           /\ buildFlowElements (json_of_bundle b) = Ok elements
           /\ App.view ToString stringify st'
              = Ok {| App.input_value := App.query st;
                      App.loading_shown := false;
                      App.panel := App.Shown cards elements |}
  | HTTPException _ _ =>
      App.results st' = App.results st /\ App.alerts evs = ["Search failed"]
  end.
Proof.
  intros post evs st'. subst st' evs post. unfold App.handleSearch.
  destruct (search client_get BeautifulSoup summarizer _) as [b|status e] eqn:Hsearch.
  - rewrite (api_search_returned _ _ _ str _ _ Hsearch).
    split; [reflexivity|]. split; [reflexivity|].
    apply search_returned in Hsearch as (ps & ds & cs & -> & Hps & _ & Hcs).
    apply comprehension_Forall2 in Hcs.
    destruct (cards_of_bundle ToString stringify ps ds cs
                (fetched_authors _ _ _ _ _ Hps) Hcs) as (cards & Hcards & _).
    exists cards. eexists. split; [exact Hcards|].
    split; [apply buildFlowElements_bundle|].
    unfold App.view. cbn [App.run fold_left app App.update App.results App.query App.loading].
    change (Js.truthy (json_of_bundle (bundle_of ps ds cs))) with true.
    cbv iota. rewrite Hcards. cbn [bind]. rewrite buildFlowElements_bundle. reflexivity.
  - rewrite (api_search_failed _ _ _ str _ _ _ Hsearch). split; reflexivity.
Qed.

Lemma fetch_single_request client1 client2 BeautifulSoup (q : string) (n : Z) :
  client1 ARXIV_BASE (params q n) = client2 ARXIV_BASE (params q n) ->
  fetch_arxiv_papers client1 BeautifulSoup q n = fetch_arxiv_papers client2 BeautifulSoup q n.
Proof. intros H. unfold fetch_arxiv_papers. rewrite H. reflexivity. Qed.

(** X19: of the feed, a search from the page reads the answer to one request
    and nothing else: the full-text query of the input, from the first
    result, five results, the latest submissions first.  With the same
    summarizer, two feed clients that answer this request alike give the
    same events. *)
Theorem page_single_request client1 client2 BeautifulSoup summarizer (str : exn -> string)
    (st : App.State) :
  client1 "http://export.arxiv.org/api/query"
    {| param_search_query := "all:" +:+ App.query st; param_start := 0;
       param_max_results := 5; param_sortBy := "submittedDate";
       param_sortOrder := "descending" |}
  = client2 "http://export.arxiv.org/api/query"
      {| param_search_query := "all:" +:+ App.query st; param_start := 0;
         param_max_results := 5; param_sortBy := "submittedDate";
         param_sortOrder := "descending" |} ->
  App.handleSearch (serve client1 BeautifulSoup summarizer str) st
  = App.handleSearch (serve client2 BeautifulSoup summarizer str) st.
Proof.
  intros H. unfold App.handleSearch, Api.search, serve, search.
  change (default 5%Z (Some 5%Z)) with 5%Z. cbv iota.
  cbn [query max_results].
  rewrite (fetch_single_request client1 client2 BeautifulSoup (App.query st) 5 H).
  reflexivity.
Qed.

Lemma page_single_request_witness :
  App.handleSearch
    (serve Sample.client_get (Sample.parsed [Sample.entry])
       (Summarizer.summarize_papers Sample.title_service Sample.parse_reply) (fun _ => ""))
    Sample.typed
  = App.handleSearch
      (serve Sample.feed_only (Sample.parsed [Sample.entry])
         (Summarizer.summarize_papers Sample.title_service Sample.parse_reply) (fun _ => ""))
      Sample.typed.
Proof.
  apply (page_single_request Sample.client_get Sample.feed_only). reflexivity.
Defined.

(** X20: the page cannot show results that are truthy and have no array of
    papers, such as a 2xx response that is not a bundle: rendering throws. *)
Theorem view_needs_papers (ToString : Js.value -> string) (stringify : Js.value -> Js.value)
    (st : App.State) :
  Js.truthy (App.results st) = true ->
  (forall items, Js.prop "papers" (App.results st) <> Ok (Js.Array items)) ->
  App.view ToString stringify st = Err TypeError.
Proof.
  intros Htruthy Hpapers. unfold App.view, App.cards. rewrite Htruthy.
  destruct (Js.prop "papers" (App.results st)) as [papers|e] eqn:Hp; cbn [bind].
  - destruct papers; try reflexivity. destruct (Hpapers items eq_refl).
  - rewrite (prop_error _ _ _ Hp). reflexivity.
Qed.

Lemma view_needs_papers_witness :
  App.view (fun _ => "") (fun v => v)
    {| App.query := "graphs";
       App.results := Js.Object [("detail", Js.Str "Not Found")];
       App.loading := false |}
  = Err TypeError.
Proof.
  apply view_needs_papers; [reflexivity|]. intros items. discriminate.
Defined.
